(** * Remote session layer of tools/ssh/ssh_handler.py

    A shallow embedding of the classes [SSHConnect], [SSHCommands] and
    [SCPFileTransfer]: the four instance fields, the three-valued status
    codes (2 connected, 1 disconnected, 0 failed), Python's exceptions with
    their class hierarchy, and every method as a computation in a small
    state-and-exception monad.  The paramiko / scp library calls are not
    part of the repository; each method takes the replies of the library
    calls it makes as extra arguments and records every call in a trace.
    The [print] calls are left out. *)

From Stdlib Require Import ZArith List String Ascii Bool Lia.
Import ListNotations.
Local Open Scope string_scope.
Local Open Scope Z_scope.

(** ** Python exceptions *)

Module Py.

(** The exception classes that the module defines, catches or can meet.
    All of them derive from [Exception]; a [BaseException] outside it
    (a keyboard interrupt) is caught by no clause of the module and is not
    represented. *)
Inductive pyclass : Type :=
  (* builtins *)
  | PyException | OSError | FileNotFoundError | PermissionError
  | TimeoutError | AttributeError
  (* paramiko *)
  | SSHException | AuthenticationException | BadAuthenticationType
  | NoValidConnectionsError
  (* scp *)
  | SCPException
  (* ssh_handler.py, lines 26-78 *)
  | SSHError | SCPError | NetworkError | UnknownError
  | SSHConnectionError | SSHAuthenticationError | SSHAlreadyConnectedError
  | ExecuteCommandError
  | SCPConnectionError | SCPAlreadyConnectedError | SCPTransferError.

Definition pyclass_eqb (a b : pyclass) : bool :=
  match a, b with
  | PyException, PyException | OSError, OSError
  | FileNotFoundError, FileNotFoundError | PermissionError, PermissionError
  | TimeoutError, TimeoutError | AttributeError, AttributeError
  | SSHException, SSHException
  | AuthenticationException, AuthenticationException
  | BadAuthenticationType, BadAuthenticationType
  | NoValidConnectionsError, NoValidConnectionsError
  | SCPException, SCPException
  | SSHError, SSHError | SCPError, SCPError | NetworkError, NetworkError
  | UnknownError, UnknownError | SSHConnectionError, SSHConnectionError
  | SSHAuthenticationError, SSHAuthenticationError
  | SSHAlreadyConnectedError, SSHAlreadyConnectedError
  | ExecuteCommandError, ExecuteCommandError
  | SCPConnectionError, SCPConnectionError
  | SCPAlreadyConnectedError, SCPAlreadyConnectedError
  | SCPTransferError, SCPTransferError => true
  | _, _ => false
  end.

(** The direct base class; [PyException] is the root of what [except
    Exception] catches. *)
Definition base (c : pyclass) : option pyclass :=
  match c with
  | PyException => None
  | OSError | AttributeError | SSHException | SCPException
  | SSHError | SCPError | NetworkError | UnknownError => Some PyException
  | FileNotFoundError | PermissionError | TimeoutError
  | NoValidConnectionsError => Some OSError
  | AuthenticationException => Some SSHException
  | BadAuthenticationType => Some AuthenticationException
  | SSHConnectionError | SSHAuthenticationError | SSHAlreadyConnectedError
  | ExecuteCommandError => Some SSHError
  | SCPConnectionError | SCPAlreadyConnectedError | SCPTransferError =>
      Some SCPError
  end.

(** [issubclass c d]: the chain of bases of [c] reaches [d].  No class of
    the table is deeper than four levels. *)
Fixpoint issubclass_upto (depth : nat) (c d : pyclass) : bool :=
  pyclass_eqb c d ||
  match depth, base c with
  | S k, Some b => issubclass_upto k b d
  | _, _ => false
  end.

Definition issubclass : pyclass -> pyclass -> bool := issubclass_upto 4.

(** An exception object: its class, [e.errno] and [str(e)]. *)
Record exn : Type := mkExn {
  exn_class : pyclass;
  exn_errno : option Z;
  exn_str   : string
}.

Definition isinstance (e : exn) (c : pyclass) : bool :=
  issubclass (exn_class e) c.

(** [Cls("msg")] for the module's own exception classes. *)
Definition new (c : pyclass) (msg : string) : exn := mkExn c None msg.

(** [str(x)] of an optional exception, as an f-string prints it. *)
Definition str_opt (o : option exn) : string :=
  match o with
  | Some e => exn_str e
  | None => "None"
  end.

End Py.
Export Py.

(** ** Object state, library calls and the monad *)

(** Identity of a library object ([paramiko.SSHClient()], [SCPClient(...)]). *)
Definition handle : Type := nat.

(** Calls into paramiko, scp and [time] that a method makes, in order. *)
Inductive event : Type :=
  | EvNewClient (h : handle)
  | EvConnectKey (h : handle) (hostname username key_filename : string)
  | EvConnectPassword (h : handle) (hostname username password : string)
  | EvAuthNone (h : handle) (username : string)
  | EvSleep (seconds : Z)
  | EvSSHClose (h : handle)
  | EvGetTransport (h : handle)
  | EvNewSCPClient (h : handle) (transport_of : handle)
  | EvSCPClose (h : handle)
  | EvExecCommand (h : handle) (command : string) (get_pty : bool)
  | EvCombineStderr
  | EvReadlines
  | EvStdinClose
  | EvShutdownWrite
  | EvRecvExitStatus
  | EvPut (h : handle) (local_path remote_path : string)
  | EvGet (h : handle) (remote_path local_path : string).

(** The fields that [SSHConnect.__init__] creates. *)
Record SSHConnect : Type := mkSSHConnect {
  ssh_session : option handle;
  scp_session : option handle;
  ssh_connection_status : Z;
  scp_connection_status : Z
}.

(** The object together with the trace of library calls made so far and
    the number of library objects allocated so far. *)
Record world : Type := mkWorld {
  self : SSHConnect;
  trace : list event;
  allocated : nat
}.

Inductive result (A : Type) : Type :=
  | Return (a : A)
  | Raise (e : exn).
Arguments Return {A} a.
Arguments Raise {A} e.

Definition M (A : Type) : Type := world -> result A * world.

Definition ret {A} (a : A) : M A := fun w => (Return a, w).

Definition raise {A} (e : exn) : M A := fun w => (Raise e, w).

Definition bind {A B} (m : M A) (f : A -> M B) : M B :=
  fun w =>
    match m w with
    | (Return a, w') => f a w'
    | (Raise e, w') => (Raise e, w')
    end.

Declare Scope py_scope.
Delimit Scope py_scope with py.
Notation "x <- m ;; k" := (bind m (fun x => k))
  (at level 61, m at next level, right associativity) : py_scope.
Notation "m ;; k" := (bind m (fun _ => k))
  (at level 61, right associativity) : py_scope.
Local Open Scope py_scope.

(** One [except (C1, ..., Cn) as e:] clause. *)
Definition handler (A : Type) : Type := list pyclass * (exn -> M A).

Definition catches {A} (e : exn) (h : handler A) : bool :=
  existsb (isinstance e) (fst h).

(** [try: m except ...]: the first clause whose classes match runs; an
    exception raised by a clause is not offered to the later clauses. *)
Definition try_except {A} (m : M A) (handlers : list (handler A)) : M A :=
  fun w =>
    match m w with
    | (Return a, w') => (Return a, w')
    | (Raise e, w') =>
        match find (catches e) handlers with
        | Some h => snd h e w'
        | None => (Raise e, w')
        end
    end.

(** [with suppress(C): m]. *)
Definition suppress (c : pyclass) (m : M unit) : M unit :=
  try_except m [([c], fun _ => ret tt)].

Definition get_self : M SSHConnect := fun w => (Return (self w), w).

Definition set_self (f : SSHConnect -> SSHConnect) : M unit :=
  fun w => (Return tt, mkWorld (f (self w)) (trace w) (allocated w)).

Definition set_ssh_session (v : option handle) : M unit :=
  set_self (fun o => mkSSHConnect v (scp_session o)
                       (ssh_connection_status o) (scp_connection_status o)).

Definition set_scp_session (v : option handle) : M unit :=
  set_self (fun o => mkSSHConnect (ssh_session o) v
                       (ssh_connection_status o) (scp_connection_status o)).

Definition set_ssh_connection_status (v : Z) : M unit :=
  set_self (fun o => mkSSHConnect (ssh_session o) (scp_session o)
                       v (scp_connection_status o)).

Definition set_scp_connection_status (v : Z) : M unit :=
  set_self (fun o => mkSSHConnect (ssh_session o) (scp_session o)
                       (ssh_connection_status o) v).

(** Record a library call. *)
Definition emit (ev : event) : M unit :=
  fun w => (Return tt, mkWorld (self w) (trace w ++ [ev]) (allocated w)).

(** A library call that returns nothing: it is recorded, then raises what
    the library raised, if anything. *)
Definition lib_call (ev : event) (reply : option exn) : M unit :=
  emit ev ;;
  match reply with
  | None => ret tt
  | Some e => raise e
  end.

(** A library call that returns a value. *)
Definition lib_read {A} (ev : event) (reply : exn + A) : M A :=
  emit ev ;;
  match reply with
  | inr a => ret a
  | inl e => raise e
  end.

(** A library constructor: allocates a fresh object. *)
Definition alloc (mk : handle -> event) : M handle :=
  fun w =>
    let h := allocated w in
    (Return h, mkWorld (self w) (trace w ++ [mk h]) (S h)).

(** Attribute access on a field that may hold [None]:
    [None.attr] raises [AttributeError]. *)
Definition deref (field : SSHConnect -> option handle) (attr : string)
  : M handle :=
  o <- get_self ;;
  match field o with
  | Some h => ret h
  | None =>
      raise (new AttributeError
               ("'NoneType' object has no attribute '" ++ attr ++ "'"))
  end.

(** Truth value of a [str]-or-[None] argument. *)
Definition truthy (s : option string) : bool :=
  match s with
  | None | Some EmptyString => false
  | Some _ => true
  end.

(** ** class SSHConnect *)

(** [SSHConnect.__init__] (lines 82-88). *)
Definition init : SSHConnect := mkSSHConnect None None 1 1.

Definition fresh : world := mkWorld init [] 0.

(** What the network answers during one connection attempt: the reply of
    [SSHClient.connect] and, on the branch without a key, the reply of
    [Transport.auth_none]; [None] means the call returned. *)
Record attempt_net : Type := mkAttemptNet {
  connect_reply : option exn;
  auth_none_reply : option exn
}.

Definition max_connection_attempts : Z := 2.
Definition retry_delay : Z := 1.

(** [range(n)]. *)
Definition range (n : Z) : list Z := map Z.of_nat (seq 0 (Z.to_nat n)).

Section Connect.

Variables (hostname username : string) (ssh_key_path : option string).
Variable net : Z -> attempt_net.

(** Lines 124-130: the calls inside the [try]. *)
Definition connect_calls (i : Z) : M unit :=
  if truthy ssh_key_path then
    h <- deref ssh_session "connect" ;;
    lib_call (EvConnectKey h hostname username
                (match ssh_key_path with Some k => k | None => "" end))
             (connect_reply (net i))
  else
    suppress AuthenticationException
      (h <- deref ssh_session "connect" ;;
       lib_call (EvConnectPassword h hostname username "")
                (connect_reply (net i))) ;;
    h <- deref ssh_session "get_transport" ;;
    lib_call (EvAuthNone h username) (auth_none_reply (net i)).

(** Lines 123-158: one [try] statement of the loop.  [inl] is the [return]
    of line 133, [inr e] an exception kept in [last_exception]. *)
Definition connection_attempt (i : Z) : M (option handle + exn) :=
  try_except
    (connect_calls i ;;
     set_ssh_connection_status 2 ;;
     o <- get_self ;;
     ret (inl (ssh_session o)))
    [ ([AuthenticationException], fun _ =>
         raise (new SSHAuthenticationError
                  "Authentication failed, verify SSH Key and credentials"));
      ([OSError], fun e => ret (inr e));
      ([SSHException], fun e => ret (inr e));
      ([PyException], fun e => ret (inr e)) ].

(** Lines 122-164: the [for] loop over the remaining attempt numbers. *)
Fixpoint connection_loop (attempts : list Z) (last_exception : option exn)
  : M (option handle + option exn) :=
  match attempts with
  | [] => ret (inr last_exception)
  | connection_attempts :: rest =>
      r <- connection_attempt connection_attempts ;;
      match r with
      | inl session => ret (inl session)
      | inr e =>
          (if connection_attempts <? max_connection_attempts - 1
           then emit (EvSleep retry_delay) else ret tt) ;;
          connection_loop rest (Some e)
      end
  end.

(** Lines 166-176: the error raised once the loop has run out. *)
Definition classify_failure (last_exception : option exn) : M (option handle) :=
  if match last_exception with
     | Some e => isinstance e OSError | None => false end
  then
    set_ssh_connection_status 0 ;;
    raise (new NetworkError
             ("Network error occurred: " ++ str_opt last_exception))
  else if match last_exception with
          | Some e => isinstance e SSHException | None => false end
  then
    set_ssh_connection_status 0 ;;
    raise (new SSHConnectionError
             ("SSH Connection failed: " ++ str_opt last_exception))
  else
    set_ssh_connection_status 0 ;;
    raise (new UnknownError
             ("SSH Connection failed due to an unknown reason after 2 attempts: "
              ++ str_opt last_exception)).

(** [SSHConnect.ssh_connect] (lines 90-176).  Line 115 sets the host-key
    policy of the new client, a local setting without a reply. *)
Definition ssh_connect (force_connect : bool) : M (option handle) :=
  o <- get_self ;;
  if (ssh_connection_status o =? 2) && negb force_connect then
    raise (new SSHAlreadyConnectedError "SSH Connection already established")
  else
    c <- alloc EvNewClient ;;
    set_ssh_session (Some c) ;;
    r <- connection_loop (range max_connection_attempts) None ;;
    match r with
    | inl session => ret session
    | inr last_exception => classify_failure last_exception
    end.

End Connect.

(** [SSHConnect.ssh_disconnect] (lines 178-207). *)
Definition ssh_disconnect (close_reply : option exn) : M unit :=
  try_except
    (o <- get_self ;;
     if ssh_connection_status o =? 2 then
       h <- deref ssh_session "close" ;;
       lib_call (EvSSHClose h) close_reply ;;
       set_ssh_connection_status 1 ;;
       set_ssh_session None
     else if (ssh_connection_status o =? 0) || (ssh_connection_status o =? 1)
     then
       raise (new SSHConnectionError
                "SSH Disconnection failed: No SSH session to close")
     else ret tt)
    [ ([SSHException; OSError], fun e =>
         raise (new SSHConnectionError
                  ("SSH Disconnection failed: " ++ exn_str e))) ].

(** [SSHConnect.scp_connect] (lines 209-249).  [open_reply] is what
    [SCPClient(self.ssh_session.get_transport())] raises, if anything. *)
Definition scp_connect (open_reply : option exn) : M (option handle) :=
  try_except
    (o <- get_self ;;
     if ssh_connection_status o =? 2 then
       match ssh_session o with
       | Some h =>
           lib_call (EvGetTransport h) open_reply ;;
           c <- alloc (fun c => EvNewSCPClient c h) ;;
           set_scp_session (Some c) ;;
           set_scp_connection_status 2 ;;
           o' <- get_self ;;
           ret (scp_session o')
       | None => ret None
       end
     else
       set_scp_connection_status 0 ;;
       raise (new SCPConnectionError
                "SCP Connection failed: No SSH session available"))
    [ ([SSHException; OSError], fun e =>
         set_scp_connection_status 0 ;;
         raise (new SCPConnectionError
                  ("SCP Connection failed: " ++ exn_str e)));
      ([PyException], fun e =>
         set_scp_connection_status 0 ;;
         raise (new SCPConnectionError
                  ("SCP Connection failed: " ++ exn_str e))) ].

(** [SSHConnect.scp_disconnect] (lines 251-283). *)
Definition scp_disconnect (close_reply : option exn) : M unit :=
  try_except
    (o <- get_self ;;
     if scp_connection_status o =? 2 then
       h <- deref scp_session "close" ;;
       lib_call (EvSCPClose h) close_reply ;;
       set_scp_connection_status 1 ;;
       set_scp_session None
     else if (scp_connection_status o =? 0) || (scp_connection_status o =? 1)
     then
       raise (new SCPConnectionError
                "SCP Disconnection failed: No SCP session to close")
     else ret tt)
    [ ([SSHException; OSError], fun e =>
         raise (new SCPConnectionError
                  ("SCP Disconnection failed: " ++ exn_str e)));
      ([PyException], fun e =>
         raise (new SCPConnectionError
                  ("SCP Disconnection failed for an unknown reason: "
                   ++ exn_str e))) ].

(** [SSHConnect.disconnect_all] (lines 285-312). *)
Definition disconnect_all (scp_close_reply ssh_close_reply : option exn)
  : M unit :=
  try_except
    (o <- get_self ;;
     (if scp_connection_status o =? 2
      then scp_disconnect scp_close_reply else ret tt) ;;
     o' <- get_self ;;
     (if ssh_connection_status o' =? 2
      then ssh_disconnect ssh_close_reply else ret tt))
    [ ([SCPConnectionError; SSHConnectionError], fun e =>
         raise (new SSHError
                  ("An error occurred when disconnecting all sessions: "
                   ++ exn_str e))) ].

(** ** class SSHCommands *)

(** A Python value passed for a parameter the code never inspects. *)
Inductive pyvalue : Type :=
  | PyNone
  | PyBool (b : bool)
  | PyInt (z : Z)
  | PyStr (s : string).

(** What the remote end answers to one executed command: what
    [exec_command] raises (if anything), what [stdout.readlines()] gives and
    what [recv_exit_status()] gives. *)
Record channel_reply : Type := mkChannelReply {
  exec_command_reply : option exn;
  readlines_reply : exn + list string;
  recv_exit_status_reply : exn + Z
}.

Definition LF : ascii := ascii_of_nat 10.
Definition CR : ascii := ascii_of_nat 13.

(** [s.replace(c, "")] for a one-character [c]. *)
Fixpoint replace_with_empty (c : ascii) (s : string) : string :=
  match s with
  | EmptyString => EmptyString
  | String a rest =>
      if Ascii.eqb a c then replace_with_empty c rest
      else String a (replace_with_empty c rest)
  end.

(** Lines 369 and 404: [s.replace("\n", "").replace("\r", "")]. *)
Definition clean_line (s : string) : string :=
  replace_with_empty CR (replace_with_empty LF s).

(** [SSHCommands.execute_command] (lines 319-341). *)
Definition execute_command (command : string) (parse : pyvalue)
    (exec_reply : option exn) : M unit :=
  o <- get_self ;;
  if ssh_connection_status o =? 2 then
    h <- deref ssh_session "exec_command" ;;
    lib_call (EvExecCommand h command false) exec_reply
  else if (ssh_connection_status o =? 0) || (ssh_connection_status o =? 1)
  then
    raise (new ExecuteCommandError
             "SSH Command execution failed: No SSH session available")
  else ret tt.

(** [SSHCommands.execute_command_with_output] (lines 343-372).  The value
    is [None] when the function falls off its end. *)
Definition execute_command_with_output (command : string)
    (remote : channel_reply) : M (option (list string)) :=
  o <- get_self ;;
  if ssh_connection_status o =? 2 then
    h <- deref ssh_session "exec_command" ;;
    lib_call (EvExecCommand h command true) (exec_command_reply remote) ;;
    emit EvCombineStderr ;;
    output <- lib_read EvReadlines (readlines_reply remote) ;;
    match output with
    | [] => raise (new ExecuteCommandError
                     "The command did not return any output")
    | _ => ret (Some (map clean_line output))
    end
  else ret None.

(** [SSHCommands.execute_command_with_exit_status] (lines 374-410). *)
Definition execute_command_with_exit_status (command : string)
    (remote : channel_reply) : M (option (list string * Z)) :=
  o <- get_self ;;
  if ssh_connection_status o =? 2 then
    h <- deref ssh_session "exec_command" ;;
    lib_call (EvExecCommand h command true) (exec_command_reply remote) ;;
    emit EvCombineStderr ;;
    output <- lib_read EvReadlines (readlines_reply remote) ;;
    emit EvStdinClose ;;
    emit EvShutdownWrite ;;
    exit_status <- lib_read EvRecvExitStatus (recv_exit_status_reply remote) ;;
    match output with
    | [] => raise (new ExecuteCommandError
                     "The command did not return any output")
    | _ =>
        if exit_status =? 0 then
          raise (new ExecuteCommandError
                   "The command did not return an exit status")
        else ret (Some (map clean_line output, exit_status))
    end
  else ret None.

(** ** class SCPFileTransfer *)

(** [SCPFileTransfer.push_file] (lines 417-469). *)
Definition push_file (local_path remote_path : string)
    (put_reply : option exn) : M unit :=
  o <- get_self ;;
  if negb (scp_connection_status o =? 2) then
    raise (new SCPConnectionError "There is no established SCP connection")
  else
    try_except
      (h <- deref scp_session "put" ;;
       lib_call (EvPut h local_path remote_path) put_reply)
      [ ([FileNotFoundError], fun _ =>
           raise (new SCPTransferError "Local file not found"));
        ([PermissionError], fun _ =>
           raise (new SCPTransferError "Permission denied"));
        ([TimeoutError], fun _ =>
           raise (new SCPTransferError "SCP operation timed out"));
        ([OSError], fun _ =>
           raise (new SCPTransferError "Unknown OS error"));
        ([SCPException], fun _ =>
           raise (new SCPTransferError "Remote path does not exist"));
        ([SSHException], fun _ =>
           raise (new SCPTransferError "SSH Connection failed during SCP Put"));
        ([PyException], fun _ =>
           raise (new SCPTransferError
                    "Unexpected exception occurred during SCP Put")) ].

(** [SCPFileTransfer.pull_file] (lines 490-542). *)
Definition pull_file (local_path remote_path : string)
    (get_reply : option exn) : M unit :=
  o <- get_self ;;
  if negb (scp_connection_status o =? 2) then
    raise (new SCPConnectionError "There is no established SCP connection")
  else
    try_except
      (h <- deref scp_session "get" ;;
       lib_call (EvGet h remote_path local_path) get_reply)
      [ ([SCPException], fun _ =>
           raise (new SCPTransferError "Unknown SCP error occurred"));
        ([SSHException], fun _ =>
           raise (new SCPTransferError
                    "SSH error occurred during SCP operation"));
        ([PermissionError], fun _ =>
           raise (new SCPTransferError "Permission denied"));
        ([FileNotFoundError], fun _ =>
           raise (new SCPTransferError "Local path does not exist"));
        ([TimeoutError], fun _ =>
           raise (new SCPTransferError "SCP operation timed out"));
        ([OSError], fun _ =>
           raise (new SCPTransferError "Unknown OS error"));
        ([PyException], fun _ =>
           raise (new SCPTransferError
                    "Unexpected error occurred during SCP operation")) ].

(** ** class SSHHandler *)

(** [SSHHandler.__init__] (lines 559-562): the fields are initialised and
    the connection is opened at once, without [force_connect]. *)
Definition SSHHandler (hostname : string) (ssh_key_path : option string)
    (username : string) (net : Z -> attempt_net) : result (option handle) * world :=
  ssh_connect hostname username ssh_key_path net false fresh.

(** ** Sequences of public operations *)

(** A call of a public method together with the replies of the library
    calls it makes. *)
Inductive op : Type :=
  | OpConnect (hostname username : string) (ssh_key_path : option string)
              (force_connect : bool) (net : Z -> attempt_net)
  | OpDisconnect (close_reply : option exn)
  | OpScpConnect (open_reply : option exn)
  | OpScpDisconnect (close_reply : option exn)
  | OpDisconnectAll (scp_close_reply ssh_close_reply : option exn)
  | OpExecute (command : string) (parse : pyvalue) (exec_reply : option exn)
  | OpExecuteWithOutput (command : string) (remote : channel_reply)
  | OpExecuteWithExitStatus (command : string) (remote : channel_reply)
  | OpPush (local_path remote_path : string) (put_reply : option exn)
  | OpPull (local_path remote_path : string) (get_reply : option exn).

(** The world after the call, whether it returned or raised. *)
Definition run_op (o : op) (w : world) : world :=
  match o with
  | OpConnect h u k f net => snd (ssh_connect h u k net f w)
  | OpDisconnect r => snd (ssh_disconnect r w)
  | OpScpConnect r => snd (scp_connect r w)
  | OpScpDisconnect r => snd (scp_disconnect r w)
  | OpDisconnectAll r1 r2 => snd (disconnect_all r1 r2 w)
  | OpExecute c p r => snd (execute_command c p r w)
  | OpExecuteWithOutput c r => snd (execute_command_with_output c r w)
  | OpExecuteWithExitStatus c r => snd (execute_command_with_exit_status c r w)
  | OpPush l r p => snd (push_file l r p w)
  | OpPull l r p => snd (pull_file l r p w)
  end.

Definition run_ops (os : list op) (w : world) : world :=
  fold_left (fun w o => run_op o w) os w.

(** ** Vocabulary of the statements *)

(** What the body of the [try] of one attempt raises ([None]: nothing).
    Without a key, an [AuthenticationException] of [connect] is suppressed
    and [auth_none] decides. *)
Definition attempt_outcome (ssh_key_path : option string) (n : attempt_net)
  : option exn :=
  if truthy ssh_key_path then connect_reply n
  else
    match connect_reply n with
    | None => auth_none_reply n
    | Some e =>
        if isinstance e AuthenticationException then auth_none_reply n
        else Some e
    end.

(** The attempt is rejected: its [try] body raises an
    [AuthenticationException]. *)
Definition rejected (o : option exn) : bool :=
  match o with
  | Some e => isinstance e AuthenticationException
  | None => false
  end.

(** The attempt fails in a way the loop retries. *)
Definition retryable (o : option exn) : bool :=
  match o with
  | Some e => negb (isinstance e AuthenticationException)
  | None => false
  end.

(** The error raised after the last attempt failed with [e]. *)
Definition exhausted_error (e : exn) : exn :=
  if isinstance e OSError then
    new NetworkError ("Network error occurred: " ++ exn_str e)
  else if isinstance e SSHException then
    new SSHConnectionError ("SSH Connection failed: " ++ exn_str e)
  else
    new UnknownError
      ("SSH Connection failed due to an unknown reason after 2 attempts: "
       ++ exn_str e).

Definition is_connect (ev : event) : bool :=
  match ev with
  | EvConnectKey _ _ _ _ | EvConnectPassword _ _ _ _ => true
  | _ => false
  end.

Definition is_sleep (ev : event) : bool :=
  match ev with
  | EvSleep _ => true
  | _ => false
  end.

(** Number of [SSHClient.connect] calls in a trace. *)
Definition connects (evs : list event) : nat :=
  List.length (filter is_connect evs).

(** The delays slept in a trace, in order. *)
Definition sleeps (evs : list event) : list event := filter is_sleep evs.

(** The library calls an operation added to the trace. *)
Definition calls_since (before after : world) : list event :=
  skipn (List.length (trace before)) (trace after).

(** The connect of an [OpConnect] cannot fail once past its precondition:
    the first attempt succeeds, or it fails retryably and the second
    succeeds. *)
Definition connect_succeeds (ssh_key_path : option string)
    (net : Z -> attempt_net) : bool :=
  match attempt_outcome ssh_key_path (net 0) with
  | None => true
  | Some e =>
      negb (isinstance e AuthenticationException) &&
      match attempt_outcome ssh_key_path (net 1) with
      | None => true
      | Some _ => false
      end
  end.

Definition no_failed_connect (o : op) : bool :=
  match o with
  | OpConnect _ _ k _ net => connect_succeeds k net
  | _ => true
  end.

(** Section 3 of the specification: the handle is non-null if and only if
    the status is Connected. *)
Definition session_invariant (o : SSHConnect) : Prop :=
  ssh_session o <> None <-> ssh_connection_status o = 2.

(** A line as [readlines] delivers it under a pty: a body free of CR and
    LF, followed by nothing, LF or CR LF. *)
Definition no_terminator_char (s : string) : Prop :=
  replace_with_empty CR (replace_with_empty LF s) = s.

Definition line_terminator (t : string) : Prop :=
  t = "" \/ t = String LF "" \/ t = String CR (String LF "").

(** The world with more library calls recorded. *)
Definition logged (w : world) (evs : list event) : world :=
  mkWorld (self w) (trace w ++ evs) (allocated w).

(** The world with [ssh_connection_status] overwritten. *)
Definition with_ssh_status (v : Z) (w : world) : world :=
  mkWorld (mkSSHConnect (ssh_session (self w)) (scp_session (self w))
                        v (scp_connection_status (self w)))
          (trace w) (allocated w).

(** The world after lines 114-115 of [ssh_connect]: a new client is
    stored in [ssh_session]. *)
Definition begun (w : world) : world :=
  mkWorld (mkSSHConnect (Some (allocated w)) (scp_session (self w))
                        (ssh_connection_status (self w))
                        (scp_connection_status (self w)))
          (trace w ++ [EvNewClient (allocated w)]) (S (allocated w)).

(** The library calls of one attempt on the client [h]. *)
Definition attempt_events (hostname username : string)
    (ssh_key_path : option string) (n : attempt_net) (h : handle)
  : list event :=
  if truthy ssh_key_path then
    [EvConnectKey h hostname username
       (match ssh_key_path with Some k => k | None => "" end)]
  else
    match connect_reply n with
    | None =>
        [EvConnectPassword h hostname username ""; EvAuthNone h username]
    | Some e =>
        if isinstance e AuthenticationException then
          [EvConnectPassword h hostname username ""; EvAuthNone h username]
        else [EvConnectPassword h hostname username ""]
    end.

Definition authentication_failed : exn :=
  new SSHAuthenticationError
      "Authentication failed, verify SSH Key and credentials".

(** The world with [scp_connection_status] overwritten. *)
Definition with_scp_status (v : Z) (w : world) : world :=
  mkWorld (mkSSHConnect (ssh_session (self w)) (scp_session (self w))
                        (ssh_connection_status (self w)) v)
          (trace w) (allocated w).

(** One half of [session_invariant]: a status of 2 comes with a handle. *)
Definition handle_when_connected (o : SSHConnect) : Prop :=
  ssh_connection_status o = 2 -> ssh_session o <> None.

(** Concrete replies used in the examples. *)
Definition net_ok : Z -> attempt_net := fun _ => mkAttemptNet None None.

Definition auth_rejected : exn :=
  mkExn AuthenticationException None "Authentication failed.".

Definition net_rejecting : Z -> attempt_net :=
  fun _ => mkAttemptNet (Some auth_rejected) None.

Definition enetunreach : exn :=
  mkExn OSError (Some 101) "[Errno 101] Network is unreachable".

Definition net_unreachable : Z -> attempt_net :=
  fun _ => mkAttemptNet (Some enetunreach) None.

Definition key : option string := Some "./axiom_rsa.key".

Definition replies (lines : list string) (exit_status : Z) : channel_reply :=
  mkChannelReply None (inr lines) (inr exit_status).

(** Two lines as a pty delivers them. *)
Definition two_lines : list string :=
  [ ("ok" ++ String CR (String LF ""))%string;
    ("done" ++ String LF "")%string ].

Definition file_not_found : exn :=
  mkExn FileNotFoundError (Some 2)
        "[Errno 2] No such file or directory: './test.txt'".

(** The world after [ssh_connect] succeeded on a fresh object. *)
Definition connected : world :=
  run_ops [OpConnect "198.18.0.171" "root" key false net_ok] fresh.

(** ... and after [scp_connect] succeeded as well. *)
Definition channel_open : world :=
  run_ops [OpScpConnect None] connected.

(** ** Vocabulary of the further properties *)

(** The same for the transfer channel: a channel status of 2 comes with a
    channel handle. *)
Definition channel_handle_when_open (o : SSHConnect) : Prop :=
  scp_connection_status o = 2 -> scp_session o <> None.

(** Both layers have their handle whenever their status is 2. *)
Definition handles_present (o : SSHConnect) : Prop :=
  handle_when_connected o /\ channel_handle_when_open o.

(** The precondition of line 110 lets the call through. *)
Definition may_connect (w : world) (force_connect : bool) : Prop :=
  ssh_connection_status (self w) <> 2 \/ force_connect = true.

(** The classes [ssh_connect] raises itself. *)
Definition connect_error_classes : list pyclass :=
  [ SSHAlreadyConnectedError; SSHAuthenticationError; NetworkError;
    SSHConnectionError; UnknownError ].


(** The library calls a connect with the key file [k] may make on the
    client [h]. *)
Definition key_call (h : handle) (hostname username k : string)
    (ev : event) : Prop :=
  ev = EvNewClient h \/ ev = EvSleep retry_delay \/
  ev = EvConnectKey h hostname username k.

(** The library calls a connect without a key may make on the client [h]. *)
Definition keyless_call (h : handle) (hostname username : string)
    (ev : event) : Prop :=
  ev = EvNewClient h \/ ev = EvSleep retry_delay \/
  ev = EvConnectPassword h hostname username "" \/
  ev = EvAuthNone h username.

(** The characters of a string, and the two that [clean_line] deletes. *)
Definition chars (s : string) : list ascii := list_ascii_of_string s.

Definition is_CR_or_LF (a : ascii) : bool := Ascii.eqb a LF || Ascii.eqb a CR.

(** The wording of the specification, "line terminators stripped from each
    line", taken at its word: the CR and LF characters at the end of the
    line are removed and the rest of the line is kept as it is.  This
    definition follows the specification, not the source; it is what
    [clean_line] is compared with. *)
Fixpoint spec_strip_line_terminator (s : string) : string :=
  match s with
  | EmptyString => EmptyString
  | String a rest =>
      match spec_strip_line_terminator rest with
      | EmptyString =>
          if is_CR_or_LF a then EmptyString else String a EmptyString
      | String b kept => String a (String b kept)
      end
  end.

(** A line of progress output as a pty delivers it: two fields separated
    by a carriage return, then CR LF. *)
Definition progress_line : string :=
  ("10%" ++ String CR ("20%" ++ String CR (String LF "")))%string.

(** The messages of [push_file] and of [pull_file], clause by clause of
    [push_file]. *)
Definition transfer_messages : list (string * string) :=
  [ ("Local file not found", "Local path does not exist");
    ("Permission denied", "Permission denied");
    ("SCP operation timed out", "SCP operation timed out");
    ("Unknown OS error", "Unknown OS error");
    ("Remote path does not exist", "Unknown SCP error occurred");
    ("SSH Connection failed during SCP Put",
     "SSH error occurred during SCP operation");
    ("Unexpected exception occurred during SCP Put",
     "Unexpected error occurred during SCP operation") ].

(** The library calls of the two capturing methods on the client [h]. *)
Definition output_calls (h : handle) (command : string) : list event :=
  [EvExecCommand h command true; EvCombineStderr; EvReadlines].

Definition exit_status_calls (h : handle) (command : string) : list event :=
  [ EvExecCommand h command true; EvCombineStderr; EvReadlines;
    EvStdinClose; EvShutdownWrite; EvRecvExitStatus ].

(** The operations that run a command or copy a file. *)
Definition is_work (o : op) : bool :=
  match o with
  | OpExecute _ _ _ | OpExecuteWithOutput _ _ | OpExecuteWithExitStatus _ _
  | OpPush _ _ _ | OpPull _ _ _ => true
  | _ => false
  end.

(** The three status codes of the module docstring (lines 13-16). *)
Definition status_code (v : Z) : Prop := v = 0 \/ v = 1 \/ v = 2.

Definition status_codes (o : SSHConnect) : Prop :=
  status_code (ssh_connection_status o) /\
  status_code (scp_connection_status o).

(** More replies for the examples. *)
Definition channel_closed : exn :=
  mkExn SSHException None "Channel closed.".

Definition permission_denied : exn :=
  mkExn PermissionError (Some 13) "[Errno 13] Permission denied".

(** * Properties *)

(** ** The exception table *)

Lemma everything_is_an_Exception (c : pyclass) : issubclass c PyException = true.
Proof. destruct c; reflexivity. Qed.

(** The module's own errors are not caught by the clause
    [except (paramiko.SSHException, OSError)]. *)
Lemma own_errors_escape_library_clause (msg : string) :
  isinstance (new SSHConnectionError msg) SSHException = false /\
  isinstance (new SSHConnectionError msg) OSError = false /\
  isinstance (new SCPConnectionError msg) SSHException = false /\
  isinstance (new SCPConnectionError msg) OSError = false.
Proof. repeat split. Qed.

(** ** Worlds used in the examples *)

Example connected_self :
  self connected = mkSSHConnect (Some 0%nat) None 2 1.
Proof. reflexivity. Qed.

Example channel_open_self :
  self channel_open = mkSSHConnect (Some 0%nat) (Some 1%nat) 2 2.
Proof. reflexivity. Qed.

(** ** Cleaning of output lines *)

Lemma replace_with_empty_app (c : ascii) (s t : string) :
  replace_with_empty c (s ++ t)
  = (replace_with_empty c s ++ replace_with_empty c t)%string.
Proof.
  induction s as [|a s IH]; simpl; [reflexivity|].
  destruct (Ascii.eqb a c); simpl; now rewrite IH.
Qed.

Lemma clean_line_app (s t : string) :
  clean_line (s ++ t) = (clean_line s ++ clean_line t)%string.
Proof. unfold clean_line. now rewrite !replace_with_empty_app. Qed.

Lemma replace_with_empty_absent (c : ascii) (s : string) :
  index 0 (String c "") (replace_with_empty c s) = None.
Proof.
  induction s as [|a s IH]; simpl; [reflexivity|].
  destruct (Ascii.eqb a c) eqn:E; [exact IH|].
  simpl. destruct (ascii_dec c a) as [->|_].
  - now rewrite Ascii.eqb_refl in E.
  - now rewrite IH.
Qed.

Lemma string_app_empty_r (s : string) : (s ++ "")%string = s.
Proof. induction s; simpl; congruence. Qed.

(** A CR in the middle of a line goes as well. *)
Example clean_line_inner_CR :
  clean_line ("10%" ++ String CR ("20%" ++ String CR (String LF "")))
  = "10%20%".
Proof. reflexivity. Qed.

(** On a line whose only CR and LF are its terminator, cleaning removes
    exactly the terminator. *)
Lemma clean_line_strips_terminator (body t : string) :
  no_terminator_char body -> line_terminator t ->
  clean_line (body ++ t) = body.
Proof.
  intros Hb Ht. rewrite clean_line_app.
  unfold no_terminator_char in Hb. unfold clean_line at 1. rewrite Hb.
  destruct Ht as [->|[->| ->]]; cbn; apply string_app_empty_r.
Qed.

(** ** Symbolic execution of a method body *)

Ltac run_body :=
  cbv [execute_command execute_command_with_output
       execute_command_with_exit_status push_file pull_file
       ssh_disconnect scp_connect scp_disconnect disconnect_all
       bind ret raise get_self set_self emit lib_call lib_read alloc deref
       try_except suppress catches
       set_ssh_session set_scp_session
       set_ssh_connection_status set_scp_connection_status].

(** Reduce what became decidable: clause selection and field reads. *)
Ltac settle :=
  cbn [find existsb fst snd orb andb negb self trace allocated
       ssh_session scp_session ssh_connection_status scp_connection_status].

(** Replace the status tests by their value, given [status = v] or
    [status <> 2]. *)
Ltac decide_status :=
  repeat match goal with
  | H : ?s = _ |- context [?s =? _] => rewrite H
  | H : ?s <> 2 |- context [?s =? 2] =>
      destruct (Z.eqb_spec s 2) as [?|_]; [contradiction|]
  end;
  cbn [Z.eqb Pos.eqb negb orb andb].

(** ** Command execution *)

(** C10.  [execute_command] never looks at its [parse] argument: two calls
    that differ only in [parse] give the same result (return or the same
    exception) and the same final world (fields and library calls). *)
Theorem execute_command_ignores_parse
    (command : string) (parse1 parse2 : pyvalue)
    (exec_reply : option exn) (w : world) :
  execute_command command parse1 exec_reply w
  = execute_command command parse2 exec_reply w.
Proof. reflexivity. Qed.

(** When the status is not 2 the two capturing methods make no library
    call and change nothing -- and they raise nothing either: both fall off
    the end of the function and give [None]. *)
Lemma capturing_methods_when_not_connected
    (command : string) (remote : channel_reply) (w : world) :
  ssh_connection_status (self w) <> 2 ->
  execute_command_with_output command remote w = (Return None, w) /\
  execute_command_with_exit_status command remote w = (Return None, w).
Proof. intros H. split; run_body; now decide_status. Qed.

(** The sibling [execute_command] does raise on a status of 0 or 1. *)
Lemma execute_command_when_not_connected
    (command : string) (parse : pyvalue) (r : option exn) (w : world) :
  ssh_connection_status (self w) = 0 \/ ssh_connection_status (self w) = 1 ->
  execute_command command parse r w
  = (Raise (new ExecuteCommandError
              "SSH Command execution failed: No SSH session available"), w).
Proof. intros [H|H]; run_body; now decide_status. Qed.

(** C1, evaluated on a freshly created (Disconnected) object: neither
    capturing method raises [ExecuteCommandError]; each returns [None],
    having made no library call, whereas [execute_command] raises. *)
Theorem capturing_methods_return_None_when_disconnected :
  execute_command_with_output "ls /mnt/internal_slot1" (replies ["ok"] 1) fresh
    = (Return None, fresh) /\
  execute_command_with_exit_status "ls /mnt/internal_slot1" (replies ["ok"] 1) fresh
    = (Return None, fresh) /\
  execute_command "ls /mnt/internal_slot1" PyNone None fresh
    = (Raise (new ExecuteCommandError
                "SSH Command execution failed: No SSH session available"),
       fresh).
Proof. repeat split. Qed.

(** C6.  On a connected session whose transport delivers [lines] and the
    exit status [st], [execute_command_with_exit_status] raises
    [ExecuteCommandError] when [lines] is empty or [st] is falsy; an exit
    status of 0 with output raises the error about a missing exit status,
    and no call ever returns a pair whose status is 0.  With output and a
    non-zero status the cleaned lines and the status are returned. *)
Theorem execute_command_with_exit_status_falsy
    (command : string) (remote : channel_reply) (w : world)
    (h : handle) (lines : list string) (st : Z) :
  ssh_connection_status (self w) = 2 ->
  ssh_session (self w) = Some h ->
  exec_command_reply remote = None ->
  readlines_reply remote = inr lines ->
  recv_exit_status_reply remote = inr st ->
  let r := fst (execute_command_with_exit_status command remote w) in
  (lines = [] \/ st = 0 ->
     exists e, r = Raise e /\ exn_class e = ExecuteCommandError) /\
  (lines <> [] -> st = 0 ->
     r = Raise (new ExecuteCommandError
                  "The command did not return an exit status")) /\
  (forall out, r <> Return (Some (out, 0))) /\
  (lines <> [] -> st <> 0 -> r = Return (Some (map clean_line lines, st))).
Proof.
  intros Hst Hs Hexec Hread Hrecv r.
  assert (Hr : r = match lines with
                   | [] => Raise (new ExecuteCommandError
                                    "The command did not return any output")
                   | _ =>
                       if st =? 0
                       then Raise (new ExecuteCommandError
                                     "The command did not return an exit status")
                       else Return (Some (map clean_line lines, st))
                   end).
  { subst r. run_body. decide_status. rewrite Hs, Hexec, Hread, Hrecv.
    destruct lines; [reflexivity|]. now destruct (st =? 0). }
  clearbody r. subst r. repeat split.
  - intros [->| ->].
    + eexists; split; reflexivity.
    + destruct lines; eexists; split; reflexivity.
  - intros Hne ->. destruct lines; [contradiction|reflexivity].
  - intros out. destruct lines; [discriminate|].
    destruct (Z.eqb_spec st 0); [discriminate|]. congruence.
  - intros Hne Hz. destruct lines; [contradiction|].
    now destruct (Z.eqb_spec st 0).
Qed.

Lemma execute_command_with_exit_status_falsy_witness :
  ssh_connection_status (self connected) = 2 /\
  ssh_session (self connected) = Some 0%nat /\
  fst (execute_command_with_exit_status "ls" (replies two_lines 0) connected)
  = Raise (new ExecuteCommandError "The command did not return an exit status").
Proof.
  split; [reflexivity|]. split; [reflexivity|].
  destruct (execute_command_with_exit_status_falsy
              "ls" (replies two_lines 0) connected 0%nat two_lines 0
              eq_refl eq_refl eq_refl eq_refl eq_refl) as (_ & H & _).
  apply H; [discriminate|reflexivity].
Defined.

(** ** Connecting *)

(** C7.  With the status at 2 and [force_connect] false, [ssh_connect]
    raises [SSHAlreadyConnectedError] at once: the world is left exactly
    as it was, so no library call was made and the stored handle is the
    same. *)
Theorem ssh_connect_already_connected
    (hostname username : string) (ssh_key_path : option string)
    (net : Z -> attempt_net) (w : world) :
  ssh_connection_status (self w) = 2 ->
  ssh_connect hostname username ssh_key_path net false w
  = (Raise (new SSHAlreadyConnectedError "SSH Connection already established"),
     w).
Proof.
  intros H. unfold ssh_connect, bind, get_self. now rewrite H.
Qed.

Lemma ssh_connect_already_connected_witness :
  ssh_connection_status (self connected) = 2 /\
  ssh_connect "198.18.0.171" "root" key net_unreachable false connected
  = (Raise (new SSHAlreadyConnectedError "SSH Connection already established"),
     connected).
Proof.
  split; [reflexivity|].
  apply (ssh_connect_already_connected
           "198.18.0.171" "root" key net_unreachable connected).
  reflexivity.
Defined.

(** ** File transfer *)

(** C9.  With the channel status different from 2, [push_file] and
    [pull_file] raise [SCPConnectionError] and leave the world as it was
    (no [put], no [get]).  With the channel open, a [put] that raises
    [FileNotFoundError] -- what the scp library does for a missing local
    file -- makes [push_file] raise [SCPTransferError] with the message
    of the local-file-not-found cause, after that one [put]. *)
Theorem transfer_preconditions
    (local_path remote_path : string) (reply : option exn) (w : world) :
  (scp_connection_status (self w) <> 2 ->
     push_file local_path remote_path reply w
     = (Raise (new SCPConnectionError "There is no established SCP connection"),
        w) /\
     pull_file local_path remote_path reply w
     = (Raise (new SCPConnectionError "There is no established SCP connection"),
        w)) /\
  (forall (h : handle) (e : exn),
     scp_connection_status (self w) = 2 ->
     scp_session (self w) = Some h ->
     isinstance e FileNotFoundError = true ->
     push_file local_path remote_path (Some e) w
     = (Raise (new SCPTransferError "Local file not found"),
        mkWorld (self w) (trace w ++ [EvPut h local_path remote_path])
                (allocated w))).
Proof.
  split.
  - intros H. split; run_body; now decide_status.
  - intros h e Hst Hs He. run_body. decide_status. rewrite Hs.
    cbn [find existsb fst snd]. now rewrite He.
Qed.

Lemma transfer_preconditions_witness :
  scp_connection_status (self connected) <> 2 /\
  push_file "./test.txt" "/mnt/internal_slot1/" None connected
  = (Raise (new SCPConnectionError "There is no established SCP connection"),
     connected) /\
  scp_connection_status (self channel_open) = 2 /\
  scp_session (self channel_open) = Some 1%nat /\
  isinstance file_not_found FileNotFoundError = true /\
  fst (push_file "./test.txt" "/mnt/internal_slot1/" (Some file_not_found)
                 channel_open)
  = Raise (new SCPTransferError "Local file not found").
Proof.
  split; [vm_compute; lia|]. split.
  - apply (transfer_preconditions
             "./test.txt" "/mnt/internal_slot1/" None connected).
    vm_compute; lia.
  - split; [reflexivity|]. split; [reflexivity|]. split; [reflexivity|].
    rewrite (proj2 (transfer_preconditions
                      "./test.txt" "/mnt/internal_slot1/" None channel_open)
                   1%nat file_not_found eq_refl eq_refl eq_refl).
    reflexivity.
Defined.

(** ** The retry loop of [ssh_connect] *)

Local Open Scope list_scope.

Lemma calls_since_logged (w w' : world) (evs : list event) :
  trace w' = trace w ++ evs -> calls_since w w' = evs.
Proof.
  intros H. unfold calls_since. rewrite H.
  rewrite skipn_app, skipn_all, Nat.sub_diag. reflexivity.
Qed.

Section ConnectProofs.

Variables (hostname username : string) (ssh_key_path : option string).
Variable net : Z -> attempt_net.

Lemma attempt_events_connects (i : Z) (h : handle) :
  let evs := attempt_events hostname username ssh_key_path (net i) h in
  connects evs = 1%nat /\ sleeps evs = [].
Proof.
  cbv zeta. unfold attempt_events.
  destruct (truthy ssh_key_path); [now split|].
  destruct (connect_reply (net i)) as [e|]; [|now split].
  destruct (isinstance e AuthenticationException); now split.
Qed.

(** The [try] body: what it raises is [attempt_outcome], what it calls is
    [attempt_events]. *)
Lemma connect_calls_spec (i : Z) (w : world) (h : handle) :
  ssh_session (self w) = Some h ->
  connect_calls hostname username ssh_key_path net i w
  = (match attempt_outcome ssh_key_path (net i) with
     | None => Return tt
     | Some e => Raise e
     end,
     logged w (attempt_events hostname username ssh_key_path (net i) h)).
Proof.
  intros Hs.
  unfold connect_calls, attempt_outcome, attempt_events, logged.
  destruct (truthy ssh_key_path).
  - run_body. rewrite Hs. now destruct (connect_reply (net i)).
  - run_body. rewrite Hs.
    destruct (connect_reply (net i)) as [e|]; settle.
    + destruct (isinstance e AuthenticationException); settle;
        [rewrite Hs|reflexivity].
      destruct (auth_none_reply (net i)); settle;
        now rewrite <- app_assoc.
    + rewrite Hs.
      destruct (auth_none_reply (net i)); settle;
        now rewrite <- app_assoc.
Qed.

(** One iteration of the loop. *)
Lemma connection_attempt_spec (i : Z) (w : world) (h : handle) :
  ssh_session (self w) = Some h ->
  let evs := attempt_events hostname username ssh_key_path (net i) h in
  connection_attempt hostname username ssh_key_path net i w
  = match attempt_outcome ssh_key_path (net i) with
    | None =>
        (Return (inl (Some h)), with_ssh_status 2 (logged w evs))
    | Some e =>
        if isinstance e AuthenticationException
        then (Raise authentication_failed, logged w evs)
        else (Return (inr e), logged w evs)
    end.
Proof.
  intros Hs evs. subst evs. unfold connection_attempt, try_except, bind at 1.
  rewrite (connect_calls_spec i w h Hs).
  destruct (attempt_outcome ssh_key_path (net i)) as [e|].
  - unfold catches. cbn [find existsb fst snd].
    destruct (isinstance e AuthenticationException); [reflexivity|].
    destruct (isinstance e OSError); [reflexivity|].
    destruct (isinstance e SSHException); [reflexivity|].
    unfold isinstance. rewrite everything_is_an_Exception. reflexivity.
  - run_body. unfold with_ssh_status, logged. settle. now rewrite Hs.
Qed.

(** The whole of [ssh_connect] once past the precondition of line 110. *)
Lemma ssh_connect_unfolded (force_connect : bool) (w : world) :
  (ssh_connection_status (self w) =? 2) && negb force_connect = false ->
  let h := allocated w in
  let w1 := logged (begun w) (attempt_events hostname username ssh_key_path (net 0) h) in
  let w2 := logged (logged w1 [EvSleep retry_delay])
                   (attempt_events hostname username ssh_key_path (net 1) h) in
  ssh_connect hostname username ssh_key_path net force_connect w
  = match attempt_outcome ssh_key_path (net 0) with
    | None => (Return (Some h), with_ssh_status 2 w1)
    | Some e0 =>
        if isinstance e0 AuthenticationException
        then (Raise authentication_failed, w1)
        else
          match attempt_outcome ssh_key_path (net 1) with
          | None => (Return (Some h), with_ssh_status 2 w2)
          | Some e1 =>
              if isinstance e1 AuthenticationException
              then (Raise authentication_failed, w2)
              else (Raise (exhausted_error e1), with_ssh_status 0 w2)
          end
    end.
Proof.
  intros Hpre h w1 w2.
  unfold ssh_connect, bind at 1, get_self. rewrite Hpre.
  unfold bind at 1, alloc. unfold bind at 1, set_ssh_session, set_self.
  cbn [self trace allocated scp_session ssh_connection_status
       scp_connection_status].
  change (range max_connection_attempts) with [0; 1].
  unfold bind at 1. cbn [connection_loop]. unfold bind at 1.
  change (connection_attempt hostname username ssh_key_path net 0 ?x)
    with (connection_attempt hostname username ssh_key_path net 0 (begun w)).
  rewrite (connection_attempt_spec 0 (begun w) h eq_refl). fold w1.
  destruct (attempt_outcome ssh_key_path (net 0)) as [e0|]; [|reflexivity].
  destruct (isinstance e0 AuthenticationException); [reflexivity|].
  change (0 <? max_connection_attempts - 1) with true.
  change (1 <? max_connection_attempts - 1) with false. cbv iota.
  unfold bind at 1. unfold emit at 1.
  fold (logged w1 [EvSleep retry_delay]).
  unfold bind at 1.
  rewrite (connection_attempt_spec 1 (logged w1 [EvSleep retry_delay]) h
             eq_refl).
  fold w2.
  destruct (attempt_outcome ssh_key_path (net 1)) as [e1|]; [|reflexivity].
  destruct (isinstance e1 AuthenticationException); [reflexivity|].
  unfold bind, ret, classify_failure, exhausted_error, str_opt.
  destruct (isinstance e1 OSError); [reflexivity|].
  destruct (isinstance e1 SSHException); reflexivity.
Qed.

End ConnectProofs.

Lemma calls_since_begun (w : world) (evs : list event) :
  calls_since w (logged (begun w) evs) = EvNewClient (allocated w) :: evs.
Proof.
  apply calls_since_logged. cbn [logged begun trace].
  now rewrite <- app_assoc.
Qed.

Lemma calls_since_retry (w : world) (first second : list event) (d : Z) :
  calls_since w (logged (logged (logged (begun w) first) [EvSleep d]) second)
  = EvNewClient (allocated w) :: first ++ [EvSleep d] ++ second.
Proof.
  apply calls_since_logged. cbn [logged begun trace].
  now rewrite <- !app_assoc.
Qed.

Lemma connects_retry (h : handle) (first second : list event) (d : Z) :
  connects (EvNewClient h :: first ++ [EvSleep d] ++ second)
  = (connects first + connects second)%nat.
Proof.
  unfold connects. cbn [filter is_connect].
  rewrite filter_app, length_app. reflexivity.
Qed.

Lemma sleeps_retry (h : handle) (first second : list event) (d : Z) :
  sleeps (EvNewClient h :: first ++ [EvSleep d] ++ second)
  = sleeps first ++ [EvSleep d] ++ sleeps second.
Proof.
  unfold sleeps. cbn [filter is_sleep]. now rewrite filter_app.
Qed.

(** C4.  [ssh_connect] on a session whose status is not 2.
    - If the first attempt is rejected (its [try] body raises an
      [AuthenticationException]), [SSHAuthenticationError] is raised after
      exactly one [connect] and no sleep, the status untouched.
    - If the first attempt fails in any other way, exactly two [connect]
      calls are made, with exactly one sleep of [retry_delay] = 1 second
      between them; a rejection of the second attempt again raises
      [SSHAuthenticationError] at once.
    - If the second attempt fails with [e] as well, the error raised is
      classified by [e]: [NetworkError] for an [OSError],
      [SSHConnectionError] for another [SSHException], [UnknownError]
      otherwise; and the status is 0 (failed). *)
Theorem ssh_connect_retry_policy
    (hostname username : string) (ssh_key_path : option string)
    (net : Z -> attempt_net) (force_connect : bool) (w : world) :
  ssh_connection_status (self w) <> 2 ->
  let r := ssh_connect hostname username ssh_key_path net force_connect w in
  let out0 := attempt_outcome ssh_key_path (net 0) in
  let out1 := attempt_outcome ssh_key_path (net 1) in
  let calls := calls_since w (snd r) in
  (rejected out0 = true ->
     fst r = Raise authentication_failed /\
     connects calls = 1%nat /\ sleeps calls = [] /\
     ssh_connection_status (self (snd r)) = ssh_connection_status (self w)) /\
  (retryable out0 = true ->
     connects calls = 2%nat /\ sleeps calls = [EvSleep 1] /\
     exists first second,
       calls = EvNewClient (allocated w) :: first ++ [EvSleep 1] ++ second /\
       connects first = 1%nat /\ connects second = 1%nat) /\
  (retryable out0 = true -> rejected out1 = true ->
     fst r = Raise authentication_failed) /\
  (forall e, retryable out0 = true -> out1 = Some e -> retryable out1 = true ->
     fst r = Raise (exhausted_error e) /\
     ssh_connection_status (self (snd r)) = 0 /\
     exn_class (exhausted_error e)
     = if isinstance e OSError then NetworkError
       else if isinstance e SSHException then SSHConnectionError
       else UnknownError).
Proof.
  intros Hst r out0 out1 calls.
  assert (Hpre : (ssh_connection_status (self w) =? 2) && negb force_connect
                 = false).
  { now destruct (Z.eqb_spec (ssh_connection_status (self w)) 2). }
  pose proof (ssh_connect_unfolded hostname username ssh_key_path net
                force_connect w Hpre) as E.
  cbv zeta in E. fold out0 out1 in E. fold r in E.
  set (ev0 := attempt_events hostname username ssh_key_path (net 0)
                (allocated w)) in E.
  set (ev1 := attempt_events hostname username ssh_key_path (net 1)
                (allocated w)) in E.
  destruct (attempt_events_connects hostname username ssh_key_path net 0
              (allocated w)) as [C0 S0].
  destruct (attempt_events_connects hostname username ssh_key_path net 1
              (allocated w)) as [C1 S1].
  fold ev0 in C0, S0. fold ev1 in C1, S1.
  assert (Hretry : retryable out0 = true ->
            calls = EvNewClient (allocated w) :: ev0 ++ [EvSleep 1] ++ ev1).
  { intros R0. subst calls. rewrite E.
    destruct out0 as [e0|]; [|discriminate]. cbn [retryable] in R0.
    destruct (isinstance e0 AuthenticationException); [discriminate|].
    destruct out1 as [e1|]; [destruct (isinstance e1 AuthenticationException)|];
      apply calls_since_retry. }
  split; [intros R|split; [intros R|split; [intros R0 R1|intros e R0 E1 R1]]].
  - subst calls. destruct out0 as [e0|]; [|discriminate]. cbn [rejected] in R.
    rewrite E, R. cbn [fst snd]. rewrite calls_since_begun.
    unfold connects, sleeps in *. cbn [filter is_connect is_sleep].
    now repeat split.
  - rewrite (Hretry R), connects_retry, sleeps_retry, C0, C1, S0, S1.
    repeat split. now exists ev0, ev1.
  - rewrite E. destruct out0 as [e0|]; [|discriminate]. cbn [retryable] in R0.
    destruct (isinstance e0 AuthenticationException); [discriminate|].
    destruct out1 as [e1|]; [|discriminate]. cbn [rejected] in R1.
    now rewrite R1.
  - rewrite E. destruct out0 as [e0|]; [|discriminate]. cbn [retryable] in R0.
    destruct (isinstance e0 AuthenticationException); [discriminate|].
    rewrite E1 in *. cbn [retryable] in R1.
    destruct (isinstance e AuthenticationException); [discriminate|].
    repeat split. unfold exhausted_error.
    destruct (isinstance e OSError); [reflexivity|].
    now destruct (isinstance e SSHException).
Qed.

Lemma ssh_connect_retry_policy_witness :
  ssh_connection_status (self fresh) <> 2 /\
  fst (ssh_connect "198.18.0.171" "root" key net_unreachable false fresh)
  = Raise (new NetworkError
             "Network error occurred: [Errno 101] Network is unreachable").
Proof.
  split; [vm_compute; lia|].
  destruct (ssh_connect_retry_policy
              "198.18.0.171" "root" key net_unreachable false fresh)
    as (_ & _ & _ & H); [vm_compute; lia|].
  apply (H enetunreach); reflexivity.
Defined.

(** The library calls of a connect to an unreachable network and of a
    connect with a rejected key. *)
Example unreachable_calls :
  ssh_connect "198.18.0.171" "root" key net_unreachable false fresh
  = (Raise (new NetworkError
              "Network error occurred: [Errno 101] Network is unreachable"),
     mkWorld (mkSSHConnect (Some 0%nat) None 0 1)
       [ EvNewClient 0%nat;
         EvConnectKey 0%nat "198.18.0.171" "root" "./axiom_rsa.key";
         EvSleep 1;
         EvConnectKey 0%nat "198.18.0.171" "root" "./axiom_rsa.key" ]
       1%nat).
Proof. reflexivity. Qed.

Example rejected_calls :
  ssh_connect "198.18.0.171" "root" key net_rejecting false fresh
  = (Raise authentication_failed,
     mkWorld (mkSSHConnect (Some 0%nat) None 1 1)
       [ EvNewClient 0%nat;
         EvConnectKey 0%nat "198.18.0.171" "root" "./axiom_rsa.key" ]
       1%nat).
Proof. reflexivity. Qed.

(** Without a key the rejection of the empty password is suppressed and
    [auth_none] decides. *)
Example keyless_calls :
  ssh_connect "10.0.0.5" "root" None net_rejecting false fresh
  = (Return (Some 0%nat),
     mkWorld (mkSSHConnect (Some 0%nat) None 2 1)
       [ EvNewClient 0%nat;
         EvConnectPassword 0%nat "10.0.0.5" "root" "";
         EvAuthNone 0%nat "root" ]
       1%nat).
Proof. reflexivity. Qed.

(** ** Effects of a failed precondition *)

(** C5, as the code has it.  With the session status different from 2,
    [ssh_disconnect] and the three command methods leave the world as it
    was; with the channel status different from 2, so do [scp_disconnect],
    [push_file] and [pull_file].  [scp_connect] is the exception: with the
    session status different from 2 it raises [SCPConnectionError] without
    any library call, but first stores 0 (failed) in the channel status;
    the other three fields are unchanged. *)
Theorem failed_precondition_effects (w : world) :
  (ssh_connection_status (self w) <> 2 ->
     (forall r, snd (ssh_disconnect r w) = w) /\
     (forall c p r, snd (execute_command c p r w) = w) /\
     (forall c r, snd (execute_command_with_output c r w) = w) /\
     (forall c r, snd (execute_command_with_exit_status c r w) = w) /\
     (forall r,
        scp_connect r w
        = (Raise (new SCPConnectionError
                    ("SCP Connection failed: " ++
                     "SCP Connection failed: No SSH session available")),
           with_scp_status 0 w))) /\
  (scp_connection_status (self w) <> 2 ->
     (forall r, snd (scp_disconnect r w) = w) /\
     (forall l r p,
        push_file l r p w
        = (Raise (new SCPConnectionError
                    "There is no established SCP connection"), w)) /\
     (forall l r p,
        pull_file l r p w
        = (Raise (new SCPConnectionError
                    "There is no established SCP connection"), w))).
Proof.
  split; intros H.
  - repeat split; intros.
    + run_body. decide_status.
      now destruct ((ssh_connection_status (self w) =? 0)
                    || (ssh_connection_status (self w) =? 1)).
    + run_body. decide_status.
      now destruct ((ssh_connection_status (self w) =? 0)
                    || (ssh_connection_status (self w) =? 1)).
    + run_body. now decide_status.
    + run_body. now decide_status.
    + run_body. now decide_status.
  - repeat split; intros.
    + run_body. decide_status.
      now destruct ((scp_connection_status (self w) =? 0)
                    || (scp_connection_status (self w) =? 1)).
    + run_body. now decide_status.
    + run_body. now decide_status.
Qed.

Lemma failed_precondition_effects_witness :
  ssh_connection_status (self fresh) <> 2 /\
  scp_connect None fresh
  = (Raise (new SCPConnectionError
              "SCP Connection failed: SCP Connection failed: No SSH session available"),
     with_scp_status 0 fresh) /\
  scp_connection_status (self fresh) <> 2 /\
  snd (scp_disconnect None fresh) = fresh.
Proof.
  split; [vm_compute; lia|]. split.
  - destruct (proj1 (failed_precondition_effects fresh)) as (_ & _ & _ & _ & H);
      [vm_compute; lia|].
    apply H.
  - split; [vm_compute; lia|].
    destruct (proj2 (failed_precondition_effects fresh)) as (H & _);
      [vm_compute; lia|].
    apply H.
Defined.

(** C5 as stated fails: on a freshly created object [scp_connect] raises,
    and the channel status goes from 1 (disconnected) to 0 (failed). *)
Lemma scp_connect_alters_channel_status :
  ~ (forall (r : option exn) (w : world),
       ssh_connection_status (self w) <> 2 ->
       scp_connection_status (self (snd (scp_connect r w)))
       = scp_connection_status (self w)).
Proof.
  intros H. specialize (H None fresh).
  assert (Hpre : ssh_connection_status (self fresh) <> 2) by (vm_compute; lia).
  specialize (H Hpre). vm_compute in H. discriminate.
Qed.

(** ** Transfers on an open channel *)

Lemma push_file_on_open_channel
    (l r : string) (p : option exn) (w : world) (c : handle) :
  scp_connection_status (self w) = 2 ->
  scp_session (self w) = Some c ->
  snd (push_file l r p w) = logged w [EvPut c l r] /\
  match p with
  | None => fst (push_file l r p w) = Return tt
  | Some _ =>
      exists msg, fst (push_file l r p w) = Raise (new SCPTransferError msg)
  end.
Proof.
  intros Hst Hs. run_body. decide_status. rewrite Hs.
  destruct p as [e|]; settle; [|now split].
  pose proof (everything_is_an_Exception (exn_class e)) as Hall.
  fold (isinstance e PyException) in Hall.
  repeat match goal with
  | |- context [isinstance e ?c || false] =>
      destruct (isinstance e c); settle
  end; try discriminate; (split; [reflexivity|eexists; reflexivity]).
Qed.

Lemma pull_file_on_open_channel
    (l r : string) (p : option exn) (w : world) (c : handle) :
  scp_connection_status (self w) = 2 ->
  scp_session (self w) = Some c ->
  snd (pull_file l r p w) = logged w [EvGet c r l] /\
  match p with
  | None => fst (pull_file l r p w) = Return tt
  | Some _ =>
      exists msg, fst (pull_file l r p w) = Raise (new SCPTransferError msg)
  end.
Proof.
  intros Hst Hs. run_body. decide_status. rewrite Hs.
  destruct p as [e|]; settle; [|now split].
  pose proof (everything_is_an_Exception (exn_class e)) as Hall.
  fold (isinstance e PyException) in Hall.
  repeat match goal with
  | |- context [isinstance e ?c || false] =>
      destruct (isinstance e c); settle
  end; try discriminate; (split; [reflexivity|eexists; reflexivity]).
Qed.

(** What a [ssh_disconnect] that returns has done. *)
Lemma ssh_disconnect_returns (close_reply : option exn) (w w' : world) :
  ssh_connection_status (self w) = 2 ->
  ssh_disconnect close_reply w = (Return tt, w') ->
  exists h,
    ssh_session (self w) = Some h /\
    w' = mkWorld (mkSSHConnect None (scp_session (self w)) 1
                               (scp_connection_status (self w)))
                 (trace w ++ [EvSSHClose h]) (allocated w).
Proof.
  intros Hst. run_body. decide_status.
  destruct (ssh_session (self w)) as [h|]; settle; [|discriminate].
  destruct close_reply as [e|]; settle.
  - destruct (isinstance e SSHException || (isinstance e OSError || false));
      discriminate.
  - intros [= <-]. now exists h.
Qed.

(** C3, as the code has it.  A [ssh_disconnect] that returns on a
    connected session sets the session status to 1 and clears the session
    handle, and touches neither field of the transfer channel.  If the
    channel was open it is still marked open: a following [push_file] or
    [pull_file] passes its status check and calls [put] / [get] on the
    kept channel handle, and whatever that call raises comes out as
    [SCPTransferError], never as [SCPConnectionError]. *)
Theorem ssh_disconnect_keeps_channel
    (close_reply : option exn) (w w' : world) :
  ssh_connection_status (self w) = 2 ->
  ssh_disconnect close_reply w = (Return tt, w') ->
  ssh_connection_status (self w') = 1 /\
  ssh_session (self w') = None /\
  scp_connection_status (self w') = scp_connection_status (self w) /\
  scp_session (self w') = scp_session (self w) /\
  (forall (c : handle) (l r : string) (p : option exn),
     scp_connection_status (self w) = 2 ->
     scp_session (self w) = Some c ->
     calls_since w' (snd (push_file l r p w')) = [EvPut c l r] /\
     calls_since w' (snd (pull_file l r p w')) = [EvGet c r l] /\
     match p with
     | None =>
         fst (push_file l r p w') = Return tt /\
         fst (pull_file l r p w') = Return tt
     | Some _ =>
         (exists msg,
            fst (push_file l r p w') = Raise (new SCPTransferError msg)) /\
         (exists msg,
            fst (pull_file l r p w') = Raise (new SCPTransferError msg))
     end).
Proof.
  intros Hst Hret.
  assert (Hw' : ssh_connection_status (self w') = 1 /\
                ssh_session (self w') = None /\
                scp_connection_status (self w') = scp_connection_status (self w) /\
                scp_session (self w') = scp_session (self w)).
  { destruct (ssh_disconnect_returns close_reply w w' Hst Hret)
      as (h & Hs & ->).
    now repeat split. }
  destruct Hw' as (H1 & H2 & H3 & H4).
  repeat (split; [assumption|]).
  intros c l r p Hopen Hc. rewrite <- H3 in Hopen. rewrite <- H4 in Hc.
  destruct (push_file_on_open_channel l r p w' c Hopen Hc) as [Hpw Hp].
  destruct (pull_file_on_open_channel l r p w' c Hopen Hc) as [Hgw Hg].
  rewrite Hpw, Hgw.
  split; [now apply calls_since_logged|].
  split; [now apply calls_since_logged|].
  destruct p; now split.
Qed.

Lemma ssh_disconnect_keeps_channel_witness :
  ssh_connection_status (self channel_open) = 2 /\
  fst (ssh_disconnect None channel_open) = Return tt /\
  scp_connection_status (self (snd (ssh_disconnect None channel_open))) = 2.
Proof.
  split; [reflexivity|]. split; [reflexivity|].
  destruct (ssh_disconnect_keeps_channel
              None channel_open (snd (ssh_disconnect None channel_open))
              eq_refl eq_refl) as (_ & _ & H & _).
  rewrite H. reflexivity.
Defined.

(** C3 as stated fails: after connect, open channel and a disconnect that
    returns, the channel status is still 2 and [push_file] does not raise
    on its status check. *)
Lemma channel_still_open_after_ssh_disconnect :
  ~ (forall (close_reply : option exn) (w w' : world),
       ssh_connection_status (self w) = 2 ->
       scp_connection_status (self w) = 2 ->
       ssh_disconnect close_reply w = (Return tt, w') ->
       scp_connection_status (self w') <> 2 /\
       forall l r p,
         push_file l r p w'
         = (Raise (new SCPConnectionError
                     "There is no established SCP connection"), w')).
Proof.
  intros H.
  destruct (H None channel_open (snd (ssh_disconnect None channel_open))
              eq_refl eq_refl eq_refl) as [Hst _].
  apply Hst. reflexivity.
Qed.

Example push_after_ssh_disconnect :
  push_file "./test.txt" "/mnt/internal_slot1/" None
            (snd (ssh_disconnect None channel_open))
  = (Return tt,
     mkWorld (mkSSHConnect None (Some 1%nat) 1 2)
       [ EvNewClient 0%nat;
         EvConnectKey 0%nat "198.18.0.171" "root" "./axiom_rsa.key";
         EvGetTransport 0%nat;
         EvNewSCPClient 1%nat 0%nat;
         EvSSHClose 0%nat;
         EvPut 1%nat "./test.txt" "/mnt/internal_slot1/" ]
       2%nat).
Proof. reflexivity. Qed.

(** ** The session fields along a sequence of operations *)

(** Case analysis on an innermost scrutinee of the goal. *)
Ltac split_case :=
  match goal with
  | |- context [match ?x with _ => _ end] =>
      lazymatch x with
      | context [match _ with _ => _ end] => fail
      | _ => destruct x eqn:?
      end
  end.

Ltac split_cases := repeat (split_case; settle).

(** Only [ssh_connect], [ssh_disconnect] and [disconnect_all] write the
    two session fields. *)
Lemma session_fields_frame (o : op) (w : world) :
  match o with
  | OpConnect _ _ _ _ _ | OpDisconnect _ | OpDisconnectAll _ _ => True
  | _ =>
      ssh_session (self (run_op o w)) = ssh_session (self w) /\
      ssh_connection_status (self (run_op o w))
      = ssh_connection_status (self w)
  end.
Proof.
  destruct o; try exact I; cbn [run_op]; run_body; split_cases; now split.
Qed.

(** [ssh_disconnect] and [disconnect_all] either leave the session fields
    alone or reset them to (no handle, status 1). *)
Lemma ssh_disconnect_session_fields (r : option exn) (w : world) :
  let o' := self (snd (ssh_disconnect r w)) in
  (ssh_session o' = ssh_session (self w) /\
   ssh_connection_status o' = ssh_connection_status (self w)) \/
  (ssh_session o' = None /\ ssh_connection_status o' = 1).
Proof.
  cbv zeta. run_body. split_cases; auto.
Qed.

Lemma disconnect_all_session_fields (r1 r2 : option exn) (w : world) :
  let o' := self (snd (disconnect_all r1 r2 w)) in
  (ssh_session o' = ssh_session (self w) /\
   ssh_connection_status o' = ssh_connection_status (self w)) \/
  (ssh_session o' = None /\ ssh_connection_status o' = 1).
Proof.
  cbv zeta. run_body. split_cases; auto.
Qed.

(** [ssh_connect] either refuses and changes nothing, or stores a new
    client; when no attempt can fail for good, the status ends at 2. *)
Lemma ssh_connect_session_fields
    (hostname username : string) (ssh_key_path : option string)
    (net : Z -> attempt_net) (force_connect : bool) (w : world) :
  let o' := self (snd (ssh_connect hostname username ssh_key_path net
                                   force_connect w)) in
  (o' = self w /\ ssh_connection_status (self w) = 2) \/
  (ssh_session o' = Some (allocated w) /\
   (connect_succeeds ssh_key_path net = true ->
    ssh_connection_status o' = 2)).
Proof.
  cbv zeta.
  destruct ((ssh_connection_status (self w) =? 2) && negb force_connect)
    eqn:Hpre.
  - left. unfold ssh_connect, bind at 1, get_self. rewrite Hpre.
    split; [reflexivity|].
    apply andb_true_iff in Hpre. now apply Z.eqb_eq.
  - right.
    rewrite (ssh_connect_unfolded hostname username ssh_key_path net
               force_connect w Hpre).
    unfold connect_succeeds.
    destruct (attempt_outcome ssh_key_path (net 0)) as [e0|];
      [|now split].
    destruct (isinstance e0 AuthenticationException); [now split|].
    destruct (attempt_outcome ssh_key_path (net 1)) as [e1|];
      [|now split].
    destruct (isinstance e1 AuthenticationException); now split.
Qed.

(** An operation that leaves both session fields alone keeps whatever
    held of them. *)
Ltac frame_case Hframe Hw :=
  lazymatch type of Hframe with
  | _ /\ _ => destruct Hframe as [-> ->]; exact Hw
  | _ => idtac
  end.

Lemma run_op_handle_when_connected (o : op) (w : world) :
  handle_when_connected (self w) -> handle_when_connected (self (run_op o w)).
Proof.
  unfold handle_when_connected. intros Hw.
  pose proof (session_fields_frame o w) as Hframe.
  destruct o; cbn [run_op] in *; frame_case Hframe Hw.
  - destruct (ssh_connect_session_fields hostname username ssh_key_path net
                force_connect w) as [[-> _]|[-> _]]; [exact Hw|discriminate].
  - destruct (ssh_disconnect_session_fields close_reply w)
      as [[-> ->]|[_ ->]]; [exact Hw|discriminate].
  - destruct (disconnect_all_session_fields scp_close_reply ssh_close_reply w)
      as [[-> ->]|[_ ->]]; [exact Hw|discriminate].
Qed.

Lemma run_op_session_invariant (o : op) (w : world) :
  no_failed_connect o = true ->
  session_invariant (self w) -> session_invariant (self (run_op o w)).
Proof.
  unfold session_invariant. intros Hok Hw.
  pose proof (session_fields_frame o w) as Hframe.
  destruct o; cbn [run_op no_failed_connect] in *; frame_case Hframe Hw.
  - destruct (ssh_connect_session_fields hostname username ssh_key_path net
                force_connect w) as [[-> _]|[-> Hst]]; [exact Hw|].
    rewrite (Hst Hok). split; [reflexivity|discriminate].
  - destruct (ssh_disconnect_session_fields close_reply w)
      as [[-> ->]|[-> ->]]; [exact Hw|]. split; [congruence|discriminate].
  - destruct (disconnect_all_session_fields scp_close_reply ssh_close_reply w)
      as [[-> ->]|[-> ->]]; [exact Hw|]. split; [congruence|discriminate].
Qed.

Lemma run_ops_snoc (os : list op) (o : op) (w : world) :
  run_ops (os ++ [o]) w = run_op o (run_ops os w).
Proof. unfold run_ops. now rewrite fold_left_app. Qed.

(** C2, as the code has it.  After any sequence of public operations on a
    freshly created object, returned or raised, a status of 2 comes with a
    stored handle; and as long as no [ssh_connect] of the sequence has
    failed (each was refused as already connected or succeeded within its
    two attempts), the handle is stored exactly when the status is 2. *)
Theorem session_handle_along_operations (os : list op) :
  handle_when_connected (self (run_ops os fresh)) /\
  (forallb no_failed_connect os = true ->
   session_invariant (self (run_ops os fresh))).
Proof.
  induction os as [|o os [IH1 IH2]] using rev_ind.
  - split.
    + intros H. discriminate H.
    + intros _. split; [intros H; now elim H|discriminate].
  - rewrite run_ops_snoc. split.
    + now apply run_op_handle_when_connected.
    + rewrite forallb_app. cbn [forallb]. rewrite andb_true_r.
      intros [Hos Ho]%andb_true_iff.
      apply run_op_session_invariant; auto.
Qed.

Lemma session_handle_along_operations_witness :
  ssh_connection_status (self connected) = 2 /\
  ssh_session (self connected) <> None /\
  forallb no_failed_connect
    [ OpConnect "198.18.0.171" "root" key false net_ok;
      OpScpConnect None; OpDisconnect None ] = true /\
  session_invariant
    (self (run_ops [ OpConnect "198.18.0.171" "root" key false net_ok;
                     OpScpConnect None; OpDisconnect None ] fresh)).
Proof.
  split; [reflexivity|]. split.
  - apply (proj1 (session_handle_along_operations
                    [OpConnect "198.18.0.171" "root" key false net_ok])).
    reflexivity.
  - split; [reflexivity|].
    apply (proj2 (session_handle_along_operations
                    [ OpConnect "198.18.0.171" "root" key false net_ok;
                      OpScpConnect None; OpDisconnect None ])).
    reflexivity.
Defined.

(** C2 as stated fails: a connect whose key is rejected leaves the new
    client in [ssh_session] while the status is still 1. *)
Lemma session_invariant_fails_after_rejected_connect :
  ~ (forall os : list op, session_invariant (self (run_ops os fresh))).
Proof.
  intros H.
  destruct (H [OpConnect "198.18.0.171" "root" key false net_rejecting])
    as [Hto _].
  assert (Hs : ssh_connection_status
                 (self (run_ops [OpConnect "198.18.0.171" "root" key false
                                   net_rejecting] fresh)) = 2).
  { apply Hto. discriminate. }
  discriminate Hs.
Qed.

(** The same after the two attempts ran out: handle stored, status 0. *)
Example failed_connect_keeps_client :
  self (run_ops [OpConnect "198.18.0.171" "root" key false net_unreachable]
                fresh)
  = mkSSHConnect (Some 0%nat) None 0 1.
Proof. reflexivity. Qed.

(** * Further properties of the connection layer *)

(** ** [ssh_connect] *)

Lemma may_connect_passes (w : world) (force_connect : bool) :
  may_connect w force_connect ->
  (ssh_connection_status (self w) =? 2) && negb force_connect = false.
Proof.
  intros [H| ->].
  - now destruct (Z.eqb_spec (ssh_connection_status (self w)) 2).
  - apply andb_false_r.
Qed.

(** The library calls of a connect that got past line 110: one attempt,
    or two with the delay between them. *)
Lemma ssh_connect_calls
    (hostname username : string) (ssh_key_path : option string)
    (net : Z -> attempt_net) (force_connect : bool) (w : world) :
  may_connect w force_connect ->
  let calls :=
    calls_since w (snd (ssh_connect hostname username ssh_key_path net
                                    force_connect w)) in
  let ev0 := attempt_events hostname username ssh_key_path (net 0)
                            (allocated w) in
  let ev1 := attempt_events hostname username ssh_key_path (net 1)
                            (allocated w) in
  calls = EvNewClient (allocated w) :: ev0 \/
  calls = EvNewClient (allocated w) :: ev0 ++ [EvSleep retry_delay] ++ ev1.
Proof.
  intros Hmay calls ev0 ev1. subst calls.
  rewrite (ssh_connect_unfolded hostname username ssh_key_path net
             force_connect w (may_connect_passes w force_connect Hmay)).
  fold ev0 ev1.
  destruct (attempt_outcome ssh_key_path (net 0)) as [e0|].
  - destruct (isinstance e0 AuthenticationException).
    + left. apply calls_since_begun.
    + right.
      destruct (attempt_outcome ssh_key_path (net 1)) as [e1|];
        [destruct (isinstance e1 AuthenticationException)|];
        apply calls_since_retry.
  - left. apply calls_since_begun.
Qed.



(** X2.  Whatever the library raises, [ssh_connect] raises only errors
    of the module's own classes: already connected, authentication,
    network, connection or unknown. *)
Theorem ssh_connect_raises_own_errors
    (hostname username : string) (ssh_key_path : option string)
    (net : Z -> attempt_net) (force_connect : bool) (w : world) (e : exn) :
  fst (ssh_connect hostname username ssh_key_path net force_connect w)
  = Raise e ->
  In (exn_class e) connect_error_classes.
Proof.
  destruct ((ssh_connection_status (self w) =? 2) && negb force_connect)
    eqn:Hpre.
  - unfold ssh_connect, bind at 1, get_self. rewrite Hpre.
    intros [= <-]. cbn. auto.
  - rewrite (ssh_connect_unfolded hostname username ssh_key_path net
               force_connect w Hpre).
    assert (Hex : forall e1, In (exn_class (exhausted_error e1))
                                connect_error_classes).
    { intros e1. unfold exhausted_error.
      destruct (isinstance e1 OSError); [cbn; auto|].
      destruct (isinstance e1 SSHException); cbn; auto 6. }
    destruct (attempt_outcome ssh_key_path (net 0)) as [e0|];
      [|discriminate].
    destruct (isinstance e0 AuthenticationException).
    + intros [= <-]. cbn. auto.
    + destruct (attempt_outcome ssh_key_path (net 1)) as [e1|];
        [|discriminate].
      destruct (isinstance e1 AuthenticationException); intros [= <-].
      * cbn. auto.
      * apply Hex.
Qed.

Lemma ssh_connect_raises_own_errors_witness :
  fst (ssh_connect "198.18.0.171" "root" key
         (fun _ => mkAttemptNet (Some file_not_found) None) false fresh)
  = Raise (exhausted_error file_not_found) /\
  In NetworkError connect_error_classes.
Proof.
  split; [reflexivity|].
  apply (ssh_connect_raises_own_errors
           "198.18.0.171" "root" key
           (fun _ => mkAttemptNet (Some file_not_found) None) false fresh
           (exhausted_error file_not_found)).
  reflexivity.
Defined.




(** Pick the alternative of [key_call] / [keyless_call] that holds. *)
Ltac one_of :=
  unfold key_call, keyless_call;
  repeat first [reflexivity | left; reflexivity | right].

(** X4.  Which credentials a connect uses.  With a non-empty key path
    every attempt is one [connect] with that key file and [auth_none] is
    never called; with no key path, or an empty one, no key file is ever
    used: every [connect] carries the empty password, and the only other
    call on the transport is [auth_none]. *)
Theorem ssh_connect_credentials
    (hostname username : string) (ssh_key_path : option string)
    (net : Z -> attempt_net) (force_connect : bool) (w : world) :
  may_connect w force_connect ->
  let calls :=
    calls_since w (snd (ssh_connect hostname username ssh_key_path net
                                    force_connect w)) in
  (forall k, ssh_key_path = Some k -> k <> "" ->
     Forall (key_call (allocated w) hostname username k) calls) /\
  (ssh_key_path = None \/ ssh_key_path = Some "" ->
     Forall (keyless_call (allocated w) hostname username) calls).
Proof.
  intros Hmay calls.
  pose proof (ssh_connect_calls hostname username ssh_key_path net
                force_connect w Hmay) as Hcalls.
  cbv zeta in Hcalls. fold calls in Hcalls.
  split.
  - intros k -> Hk.
    assert (Hev : forall n,
              Forall (key_call (allocated w) hostname username k)
                     (attempt_events hostname username (Some k) n
                        (allocated w))).
    { intros n. unfold attempt_events.
      destruct k; [contradiction|]. cbn [truthy].
      constructor; [one_of|constructor]. }
    destruct Hcalls as [-> | ->].
    + constructor; [one_of|apply Hev].
    + constructor; [one_of|].
      apply Forall_app. split; [apply Hev|].
      apply Forall_app. split; [|apply Hev].
      constructor; [one_of|constructor].
  - intros Hk.
    assert (Hev : forall n,
              Forall (keyless_call (allocated w) hostname username)
                     (attempt_events hostname username ssh_key_path n
                        (allocated w))).
    { intros n. unfold attempt_events.
      assert (Ht : truthy ssh_key_path = false) by now destruct Hk as [-> | ->].
      rewrite Ht.
      destruct (connect_reply n) as [e|];
        [destruct (isinstance e AuthenticationException)|];
        repeat (constructor; [one_of|]); constructor. }
    destruct Hcalls as [-> | ->].
    + constructor; [one_of|apply Hev].
    + constructor; [one_of|].
      apply Forall_app. split; [apply Hev|].
      apply Forall_app. split; [|apply Hev].
      constructor; [one_of|constructor].
Qed.

Lemma ssh_connect_credentials_witness :
  may_connect fresh false /\
  Forall (keyless_call 0%nat "10.0.0.5" "root")
    (calls_since fresh
       (snd (ssh_connect "10.0.0.5" "root" (Some "") net_unreachable false
                         fresh))).
Proof.
  assert (Hmay : may_connect fresh false) by (left; vm_compute; lia).
  split; [exact Hmay|].
  apply (proj2 (ssh_connect_credentials
                  "10.0.0.5" "root" (Some "") net_unreachable false fresh
                  Hmay)).
  right. reflexivity.
Defined.

(** X5.  Building an [SSHHandler] connects a new object at once.  It
    ends connected, with client and status 2 and the channel still
    closed, exactly when an attempt succeeds; otherwise it raises, and what
    it raises is never [SSHAlreadyConnectedError]. *)
Theorem SSHHandler_construction
    (hostname : string) (ssh_key_path : option string) (username : string)
    (net : Z -> attempt_net) :
  let r := SSHHandler hostname ssh_key_path username net in
  (connect_succeeds ssh_key_path net = true ->
     fst r = Return (Some 0%nat) /\
     self (snd r) = mkSSHConnect (Some 0%nat) None 2 1) /\
  (connect_succeeds ssh_key_path net = false ->
     exists e, fst r = Raise e /\
               exn_class e <> SSHAlreadyConnectedError /\
               ssh_connection_status (self (snd r)) <> 2).
Proof.
  intros r. subst r. unfold SSHHandler.
  assert (Hpre : (ssh_connection_status (self fresh) =? 2) && negb false
                 = false) by reflexivity.
  rewrite (ssh_connect_unfolded hostname username ssh_key_path net
             false fresh Hpre).
  unfold connect_succeeds.
  destruct (attempt_outcome ssh_key_path (net 0)) as [e0|].
  - destruct (isinstance e0 AuthenticationException); cbn [negb andb].
    + split; [discriminate|]. intros _. eexists.
      split; [reflexivity|]. split; discriminate.
    + destruct (attempt_outcome ssh_key_path (net 1)) as [e1|].
      * split; [discriminate|]. intros _.
        destruct (isinstance e1 AuthenticationException).
        -- eexists. split; [reflexivity|]. split; discriminate.
        -- eexists. split; [reflexivity|]. split; [|discriminate].
           unfold exhausted_error.
           destruct (isinstance e1 OSError); [discriminate|].
           destruct (isinstance e1 SSHException); discriminate.
      * split; [now split|discriminate].
  - split; [now split|discriminate].
Qed.

Lemma SSHHandler_construction_witness :
  connect_succeeds key net_unreachable = false /\
  exists e,
    fst (SSHHandler "198.18.0.171" key "root" net_unreachable) = Raise e /\
    exn_class e <> SSHAlreadyConnectedError /\
    ssh_connection_status
      (self (snd (SSHHandler "198.18.0.171" key "root" net_unreachable)))
    <> 2.
Proof.
  split; [reflexivity|].
  apply (proj2 (SSHHandler_construction
                  "198.18.0.171" key "root" net_unreachable)).
  reflexivity.
Defined.

(** ** Closing the session, opening and closing the channel *)

(** X6.  [ssh_disconnect] on a connected session calls [close] once.  If
    [close] returns, the handle is cleared and the status is 1.  If it
    raises, the four fields are exactly as before -- the session is still
    marked connected and the call can be repeated -- and the error is an
    [SSHConnectionError] carrying the library's text when the library
    raised an [SSHException] or an [OSError]; any other exception comes
    out as it is. *)
Theorem ssh_disconnect_outcomes
    (close_reply : option exn) (w : world) (h : handle) :
  ssh_connection_status (self w) = 2 ->
  ssh_session (self w) = Some h ->
  let r := ssh_disconnect close_reply w in
  trace (snd r) = trace w ++ [EvSSHClose h] /\
  match close_reply with
  | None =>
      fst r = Return tt /\
      self (snd r)
      = mkSSHConnect None (scp_session (self w)) 1
                     (scp_connection_status (self w))
  | Some e =>
      self (snd r) = self w /\
      (isinstance e SSHException || isinstance e OSError = true ->
         fst r = Raise (new SSHConnectionError
                          ("SSH Disconnection failed: " ++ exn_str e))) /\
      (isinstance e SSHException || isinstance e OSError = false ->
         fst r = Raise e)
  end.
Proof.
  intros Hst Hs r. subst r. run_body. decide_status. rewrite Hs.
  destruct close_reply as [e|]; settle; [|now repeat split].
  rewrite orb_false_r.
  destruct (isinstance e SSHException || isinstance e OSError);
    repeat split; intros; try reflexivity; discriminate.
Qed.

Lemma ssh_disconnect_outcomes_witness :
  ssh_connection_status (self connected) = 2 /\
  ssh_session (self connected) = Some 0%nat /\
  self (snd (ssh_disconnect (Some channel_closed) connected))
  = self connected.
Proof.
  split; [reflexivity|]. split; [reflexivity|].
  destruct (ssh_disconnect_outcomes (Some channel_closed) connected 0%nat
              eq_refl eq_refl) as (_ & H & _).
  exact H.
Defined.

(** X7.  [scp_connect] on a connected session makes a new channel every
    time it is called: the new handle is stored and returned with channel
    status 2, whatever the channel status was, and a channel that was
    already open is neither reused nor closed.  If building the channel
    raises anything, [SCPConnectionError] is raised with the library's
    text, the channel status becomes 0 and the previous channel handle
    stays stored.  The session fields are untouched either way. *)
Theorem scp_connect_on_connected_session
    (open_reply : option exn) (w : world) (h : handle) :
  ssh_connection_status (self w) = 2 ->
  ssh_session (self w) = Some h ->
  match open_reply with
  | None =>
      scp_connect open_reply w
      = (Return (Some (allocated w)),
         mkWorld (mkSSHConnect (Some h) (Some (allocated w)) 2 2)
                 (trace w ++ [EvGetTransport h;
                              EvNewSCPClient (allocated w) h])
                 (S (allocated w)))
  | Some e =>
      scp_connect open_reply w
      = (Raise (new SCPConnectionError
                  ("SCP Connection failed: " ++ exn_str e)),
         mkWorld (mkSSHConnect (Some h) (scp_session (self w)) 2 0)
                 (trace w ++ [EvGetTransport h]) (allocated w))
  end.
Proof.
  intros Hst Hs. run_body. decide_status. rewrite Hs.
  destruct open_reply as [e|]; settle.
  - rewrite orb_false_r.
    destruct (isinstance e SSHException || isinstance e OSError); settle.
    + now rewrite Hst, Hs.
    + unfold isinstance. rewrite everything_is_an_Exception. settle.
      now rewrite Hst, Hs.
  - rewrite Hst, Hs. now rewrite <- app_assoc.
Qed.

Lemma scp_connect_on_connected_session_witness :
  ssh_connection_status (self channel_open) = 2 /\
  ssh_session (self channel_open) = Some 0%nat /\
  self (snd (scp_connect None channel_open))
  = mkSSHConnect (Some 0%nat) (Some 2%nat) 2 2 /\
  self (snd (scp_connect (Some channel_closed) channel_open))
  = mkSSHConnect (Some 0%nat) (Some 1%nat) 2 0.
Proof.
  split; [reflexivity|]. split; [reflexivity|]. split.
  - rewrite (scp_connect_on_connected_session None channel_open 0%nat
               eq_refl eq_refl).
    reflexivity.
  - rewrite (scp_connect_on_connected_session (Some channel_closed)
               channel_open 0%nat eq_refl eq_refl).
    reflexivity.
Defined.

(** X8.  The channel methods let no library exception through.  In any
    state and for any reply, [scp_connect] and [scp_disconnect] either
    return or raise [SCPConnectionError], and [push_file] and [pull_file]
    either return or raise [SCPConnectionError] or [SCPTransferError]. *)
Theorem channel_methods_raise_own_errors (w : world) (reply : option exn) :
  (forall e, fst (scp_connect reply w) = Raise e ->
             exn_class e = SCPConnectionError) /\
  (forall e, fst (scp_disconnect reply w) = Raise e ->
             exn_class e = SCPConnectionError) /\
  (forall l r e, fst (push_file l r reply w) = Raise e ->
             exn_class e = SCPConnectionError \/
             exn_class e = SCPTransferError) /\
  (forall l r e, fst (pull_file l r reply w) = Raise e ->
             exn_class e = SCPConnectionError \/
             exn_class e = SCPTransferError).
Proof.
  repeat split; intros until e; run_body; split_cases;
    try discriminate;
    try (intros [= <-]; cbn; auto; fail);
    exfalso;
    repeat match goal with
    | H : isinstance ?x PyException || false = false |- _ =>
        unfold isinstance in H;
        rewrite everything_is_an_Exception in H; discriminate H
    end.
Qed.

Lemma channel_methods_raise_own_errors_witness :
  fst (push_file "./test.txt" "/mnt/internal_slot1/"
                 (Some permission_denied) channel_open)
  = Raise (new SCPTransferError "Permission denied") /\
  (exn_class (new SCPTransferError "Permission denied") = SCPConnectionError \/
   exn_class (new SCPTransferError "Permission denied") = SCPTransferError).
Proof.
  split; [reflexivity|].
  apply (proj1 (proj2 (proj2 (channel_methods_raise_own_errors
                                channel_open (Some permission_denied))))
           "./test.txt" "/mnt/internal_slot1/").
  reflexivity.
Defined.

(** Status tests that only show up after a reduction. *)
Ltac decide_all := repeat (progress decide_status).

(** Run a method body as far as the known statuses and handles take it. *)
Ltac execute :=
  repeat first
    [ progress decide_status
    | progress settle
    | progress cbn [Z.eqb Pos.eqb negb orb andb]
    | match goal with
      | H : ?s = Some _ |- context [match ?s with _ => _ end] => rewrite H
      end ].

(** A status of 2 without its handle contradicts [handles_present]. *)
Ltac absurd_handle :=
  exfalso;
  repeat match goal with
  | H : (_ =? 2) = true |- _ => apply Z.eqb_eq in H
  end;
  unfold handles_present, handle_when_connected, channel_handle_when_open in *;
  intuition congruence.

(** X9.  [scp_disconnect] that raises has changed no field, whatever the
    channel status was; on an open channel whose [close] returns it
    returns, clears the channel handle and sets the channel status to 1,
    leaving the session fields alone. *)
Theorem scp_disconnect_outcomes (close_reply : option exn) (w : world) :
  let r := scp_disconnect close_reply w in
  (forall e, fst r = Raise e -> self (snd r) = self w) /\
  (forall c,
     scp_connection_status (self w) = 2 -> scp_session (self w) = Some c ->
     close_reply = None ->
     r = (Return tt,
          mkWorld (mkSSHConnect (ssh_session (self w)) None
                                (ssh_connection_status (self w)) 1)
                  (trace w ++ [EvSCPClose c]) (allocated w))).
Proof.
  cbv zeta. split.
  - intros e. run_body. split_cases; try discriminate; reflexivity.
  - intros c Hst Hs ->. run_body. decide_status. now rewrite Hs.
Qed.

Lemma scp_disconnect_outcomes_witness :
  fst (scp_disconnect None connected)
  = Raise (new SCPConnectionError
             ("SCP Disconnection failed for an unknown reason: " ++
              "SCP Disconnection failed: No SCP session to close")) /\
  self (snd (scp_disconnect None connected)) = self connected /\
  scp_connection_status (self channel_open) = 2 /\
  scp_session (self channel_open) = Some 1%nat /\
  self (snd (scp_disconnect None channel_open))
  = mkSSHConnect (Some 0%nat) None 2 1.
Proof.
  split; [reflexivity|]. split.
  - apply (proj1 (scp_disconnect_outcomes None connected)
             (new SCPConnectionError
                ("SCP Disconnection failed for an unknown reason: " ++
                 "SCP Disconnection failed: No SCP session to close"))).
    reflexivity.
  - split; [reflexivity|]. split; [reflexivity|].
    rewrite (proj2 (scp_disconnect_outcomes None channel_open) 1%nat
               eq_refl eq_refl eq_refl).
    reflexivity.
Defined.

(** ** [disconnect_all] *)

Lemma disconnect_all_returns_closed (w : world) :
  handles_present (self w) ->
  let r := disconnect_all None None w in
  fst r = Return tt /\
  ssh_connection_status (self (snd r)) <> 2 /\
  scp_connection_status (self (snd r)) <> 2.
Proof.
  intros Hh r. subst r.
  split; [|split].
  - run_body. split_cases; try reflexivity; absurd_handle.
  - run_body. split_cases; try discriminate; try absurd_handle;
      rewrite ?Z.eqb_neq in *; assumption.
  - run_body. split_cases; try discriminate; try absurd_handle;
      rewrite ?Z.eqb_neq in *; assumption.
Qed.

Lemma disconnect_all_both_open (w : world) (c h : handle) :
  scp_connection_status (self w) = 2 -> scp_session (self w) = Some c ->
  ssh_connection_status (self w) = 2 -> ssh_session (self w) = Some h ->
  disconnect_all None None w
  = (Return tt,
     mkWorld init (trace w ++ [EvSCPClose c; EvSSHClose h]) (allocated w)).
Proof.
  intros Hscp Hc Hssh Hs. run_body. execute. now rewrite <- app_assoc.
Qed.

(** X10.  When every status of 2 has its handle and both [close] calls
    return, [disconnect_all] returns and leaves neither status at 2.
    With both layers open it closes the channel first and the session
    second, and all four fields are back at their initial values. *)
Theorem disconnect_all_closes_both (w : world) :
  handles_present (self w) ->
  let r := disconnect_all None None w in
  fst r = Return tt /\
  ssh_connection_status (self (snd r)) <> 2 /\
  scp_connection_status (self (snd r)) <> 2 /\
  (forall c h,
     scp_connection_status (self w) = 2 -> scp_session (self w) = Some c ->
     ssh_connection_status (self w) = 2 -> ssh_session (self w) = Some h ->
     calls_since w (snd r) = [EvSCPClose c; EvSSHClose h] /\
     self (snd r) = init).
Proof.
  intros Hh r. subst r.
  destruct (disconnect_all_returns_closed w Hh) as (H1 & H2 & H3).
  repeat (split; [assumption|]).
  intros c h Hscp Hc Hssh Hs.
  rewrite (disconnect_all_both_open w c h Hscp Hc Hssh Hs).
  split; [now apply calls_since_logged|reflexivity].
Qed.

Lemma disconnect_all_closes_both_witness :
  handles_present (self channel_open) /\
  fst (disconnect_all None None channel_open) = Return tt /\
  calls_since channel_open (snd (disconnect_all None None channel_open))
  = [EvSCPClose 1%nat; EvSSHClose 0%nat] /\
  self (snd (disconnect_all None None channel_open)) = init.
Proof.
  assert (Hh : handles_present (self channel_open))
    by (split; intros _; discriminate).
  split; [exact Hh|].
  destruct (disconnect_all_closes_both channel_open Hh) as (Hr & _ & _ & H).
  split; [exact Hr|].
  exact (H 1%nat 0%nat eq_refl eq_refl eq_refl eq_refl).
Defined.

(** X11.  [disconnect_all] is idempotent: after a [disconnect_all] whose
    [close] calls returned, a second one returns without any library call
    and without changing anything, whatever the library would answer. *)
Theorem disconnect_all_idempotent
    (w : world) (scp_close_reply ssh_close_reply : option exn) :
  handles_present (self w) ->
  let w1 := snd (disconnect_all None None w) in
  disconnect_all scp_close_reply ssh_close_reply w1 = (Return tt, w1).
Proof.
  intros Hh w1.
  destruct (disconnect_all_returns_closed w Hh) as (_ & Hssh & Hscp).
  fold w1 in Hssh, Hscp. clearbody w1.
  run_body. decide_all. reflexivity.
Qed.

Lemma disconnect_all_idempotent_witness :
  handles_present (self channel_open) /\
  disconnect_all (Some channel_closed) (Some channel_closed)
                 (snd (disconnect_all None None channel_open))
  = (Return tt, snd (disconnect_all None None channel_open)).
Proof.
  assert (Hh : handles_present (self channel_open))
    by (split; intros _; discriminate).
  split; [exact Hh|].
  apply (disconnect_all_idempotent channel_open (Some channel_closed)
           (Some channel_closed) Hh).
Defined.

(** X12.  If closing the channel fails, [disconnect_all] stops there: it
    raises [SSHError], the session is not closed ([close] is never called
    on it) and no field has changed, so the session is still connected. *)
Theorem disconnect_all_stops_at_channel_failure
    (w : world) (e : exn) (ssh_close_reply : option exn) (c : handle) :
  scp_connection_status (self w) = 2 ->
  scp_session (self w) = Some c ->
  let r := disconnect_all (Some e) ssh_close_reply w in
  (exists msg, fst r = Raise (new SSHError msg)) /\
  snd r = logged w [EvSCPClose c].
Proof.
  intros Hst Hs r. subst r.
  pose proof (everything_is_an_Exception (exn_class e)) as Hall.
  fold (isinstance e PyException) in Hall.
  run_body. execute.
  destruct (isinstance e SSHException || (isinstance e OSError || false));
    execute.
  - split; [eexists; reflexivity|reflexivity].
  - rewrite Hall. execute.
    split; [eexists; reflexivity|reflexivity].
Qed.

Lemma disconnect_all_stops_at_channel_failure_witness :
  scp_connection_status (self channel_open) = 2 /\
  scp_session (self channel_open) = Some 1%nat /\
  self (snd (disconnect_all (Some channel_closed) None channel_open))
  = self channel_open.
Proof.
  split; [reflexivity|]. split; [reflexivity|].
  rewrite (proj2 (disconnect_all_stops_at_channel_failure
                    channel_open channel_closed None 1%nat eq_refl eq_refl)).
  reflexivity.
Defined.

(** * Further properties of commands and transfers *)

(** X13.  Running commands and transferring files never writes a field
    of the object: whatever the state, the arguments and the replies, the
    two handles and the two statuses are the same after
    [execute_command], the two capturing methods, [push_file] and
    [pull_file]. *)
Theorem commands_and_transfers_keep_fields (w : world) :
  (forall c p r, self (snd (execute_command c p r w)) = self w) /\
  (forall c r, self (snd (execute_command_with_output c r w)) = self w) /\
  (forall c r,
     self (snd (execute_command_with_exit_status c r w)) = self w) /\
  (forall l r p, self (snd (push_file l r p w)) = self w) /\
  (forall l r p, self (snd (pull_file l r p w)) = self w).
Proof.
  repeat split; intros; run_body; split_cases; reflexivity.
Qed.

(** X14.  The command methods do not wrap what the transport raises.  On
    a connected session an exception of [exec_command] leaves each of the
    three methods unchanged, after that single call; so does an exception
    of [readlines] (no stream is closed after it) and, in
    [execute_command_with_exit_status], one of [recv_exit_status]. *)
Theorem command_methods_propagate_library_errors
    (command : string) (parse : pyvalue) (remote : channel_reply)
    (w : world) (h : handle) (e : exn) :
  ssh_connection_status (self w) = 2 ->
  ssh_session (self w) = Some h ->
  execute_command command parse (Some e) w
  = (Raise e, logged w [EvExecCommand h command false]) /\
  (exec_command_reply remote = Some e ->
     execute_command_with_output command remote w
     = (Raise e, logged w [EvExecCommand h command true]) /\
     execute_command_with_exit_status command remote w
     = (Raise e, logged w [EvExecCommand h command true])) /\
  (exec_command_reply remote = None -> readlines_reply remote = inl e ->
     execute_command_with_output command remote w
     = (Raise e, logged w (output_calls h command)) /\
     execute_command_with_exit_status command remote w
     = (Raise e, logged w (output_calls h command))) /\
  (forall lines,
     exec_command_reply remote = None ->
     readlines_reply remote = inr lines ->
     recv_exit_status_reply remote = inl e ->
     execute_command_with_exit_status command remote w
     = (Raise e, logged w (exit_status_calls h command))).
Proof.
  intros Hst Hs. unfold logged, output_calls, exit_status_calls.
  split; [|split; [|split]].
  - run_body. now execute.
  - intros He. split; run_body; execute; reflexivity.
  - intros He Hr. split; run_body; execute; rewrite ?He, ?Hr; execute;
      now rewrite <- !app_assoc.
  - intros lines He Hr Hx. run_body. execute. rewrite ?He, ?Hr, ?Hx. execute.
    now rewrite <- !app_assoc.
Qed.

Lemma command_methods_propagate_library_errors_witness :
  ssh_connection_status (self connected) = 2 /\
  ssh_session (self connected) = Some 0%nat /\
  fst (execute_command "reboot" PyNone (Some channel_closed) connected)
  = Raise channel_closed.
Proof.
  split; [reflexivity|]. split; [reflexivity|].
  rewrite (proj1 (command_methods_propagate_library_errors
                    "reboot" PyNone (replies [] 0) connected 0%nat
                    channel_closed eq_refl eq_refl)).
  reflexivity.
Defined.

(** X15.  The library calls of the capturing methods do not depend on
    what comes back.  When the transport answers, the plain variant makes
    its three calls and the exit-status variant its six, in the same
    order, whether the method then returns or raises: an empty output is
    only rejected after the streams were shut and the exit status was
    waited for. *)
Theorem capturing_methods_calls
    (command : string) (remote : channel_reply) (w : world) (h : handle)
    (lines : list string) (st : Z) :
  ssh_connection_status (self w) = 2 ->
  ssh_session (self w) = Some h ->
  exec_command_reply remote = None ->
  readlines_reply remote = inr lines ->
  recv_exit_status_reply remote = inr st ->
  snd (execute_command_with_output command remote w)
  = logged w (output_calls h command) /\
  snd (execute_command_with_exit_status command remote w)
  = logged w (exit_status_calls h command).
Proof.
  intros Hst Hs He Hr Hx. unfold logged, output_calls, exit_status_calls.
  split; run_body; execute; rewrite ?He, ?Hr, ?Hx; execute.
  - destruct lines; execute; now rewrite <- !app_assoc.
  - destruct lines; [|destruct (st =? 0)]; execute;
      now rewrite <- !app_assoc.
Qed.

Lemma capturing_methods_calls_witness :
  ssh_connection_status (self connected) = 2 /\
  ssh_session (self connected) = Some 0%nat /\
  fst (execute_command_with_exit_status "ls" (replies [] 0) connected)
  = Raise (new ExecuteCommandError "The command did not return any output") /\
  calls_since connected
    (snd (execute_command_with_exit_status "ls" (replies [] 0) connected))
  = exit_status_calls 0%nat "ls".
Proof.
  split; [reflexivity|]. split; [reflexivity|]. split; [reflexivity|].
  rewrite (proj2 (capturing_methods_calls "ls" (replies [] 0) connected
                    0%nat [] 0 eq_refl eq_refl eq_refl eq_refl eq_refl)).
  reflexivity.
Defined.

(** X16.  The two capturing methods agree.  Whenever
    [execute_command_with_exit_status] returns a pair, the session was
    connected, the status of the pair is not 0, the list is not empty,
    and [execute_command_with_output] returns that same list for the same
    replies. *)
Theorem capturing_methods_agree
    (command : string) (remote : channel_reply) (w : world)
    (out : list string) (st : Z) :
  fst (execute_command_with_exit_status command remote w)
  = Return (Some (out, st)) ->
  ssh_connection_status (self w) = 2 /\ st <> 0 /\ out <> [] /\
  fst (execute_command_with_output command remote w) = Return (Some out).
Proof.
  run_body.
  destruct (Z.eqb_spec (ssh_connection_status (self w)) 2) as [Hst|Hst];
    [|discriminate].
  destruct (ssh_session (self w)) as [h|]; execute; [|discriminate].
  destruct (exec_command_reply remote); execute; [discriminate|].
  destruct (readlines_reply remote) as [e|lines]; execute; [discriminate|].
  destruct (recv_exit_status_reply remote) as [e|x]; execute;
    [discriminate|].
  destruct lines as [|l lines]; execute; [discriminate|].
  destruct (Z.eqb_spec x 0); execute; [discriminate|].
  intros [= <- <-]. repeat split; auto. discriminate.
Qed.

Lemma capturing_methods_agree_witness :
  fst (execute_command_with_exit_status "ls" (replies two_lines 2) connected)
  = Return (Some (["ok"; "done"], 2)) /\
  fst (execute_command_with_output "ls" (replies two_lines 2) connected)
  = Return (Some ["ok"; "done"]).
Proof.
  split; [reflexivity|].
  apply (capturing_methods_agree "ls" (replies two_lines 2) connected
           ["ok"; "done"] 2).
  reflexivity.
Defined.

(** ** The cleaned lines *)

Lemma chars_replace_with_empty (c : ascii) (s : string) :
  chars (replace_with_empty c s)
  = filter (fun a => negb (Ascii.eqb a c)) (chars s).
Proof.
  unfold chars. induction s as [|a s IH]; [reflexivity|].
  cbn [replace_with_empty list_ascii_of_string filter].
  destruct (Ascii.eqb a c); cbn [negb list_ascii_of_string]; now rewrite IH.
Qed.

Lemma filter_filter {A} (f g : A -> bool) (l : list A) :
  filter f (filter g l) = filter (fun a => g a && f a) l.
Proof.
  induction l as [|a l IH]; [reflexivity|].
  cbn [filter]. destruct (g a); cbn [filter andb]; now rewrite IH.
Qed.

Lemma clean_line_chars (s : string) :
  chars (clean_line s) = filter (fun a => negb (is_CR_or_LF a)) (chars s).
Proof.
  unfold clean_line.
  rewrite !chars_replace_with_empty, filter_filter.
  apply filter_ext. intros a. unfold is_CR_or_LF.
  now rewrite negb_orb.
Qed.

Lemma clean_line_drops (s : string) (a : ascii) :
  is_CR_or_LF a = true -> ~ In a (chars (clean_line s)).
Proof.
  intros Ha Hin. rewrite clean_line_chars in Hin. apply filter_In in Hin.
  destruct Hin as [_ Hin]. now rewrite Ha in Hin.
Qed.

Lemma chars_injective (t u : string) : chars t = chars u -> t = u.
Proof.
  unfold chars. intros H.
  rewrite <- (string_of_list_ascii_of_string t),
          <- (string_of_list_ascii_of_string u).
  now rewrite H.
Qed.

(** ** Cleaning against stripping the terminator *)

Lemma filter_fixed_iff {A} (f : A -> bool) (l : list A) :
  filter f l = l <-> Forall (fun a => f a = true) l.
Proof.
  split.
  - induction l as [|a l IH]; intros H; [constructor|].
    cbn [filter] in H. destruct (f a) eqn:Fa.
    + injection H as H. constructor; auto.
    + exfalso. pose proof (filter_length_le f l) as Hle.
      rewrite H in Hle. cbn [List.length] in Hle. lia.
  - induction 1 as [|a l Fa _ IH]; [reflexivity|].
    cbn [filter]. now rewrite Fa, IH.
Qed.

(** Stripping the terminator removes CR and LF characters only. *)
Lemma strip_keeps_other_chars (s : string) :
  filter (fun a => negb (is_CR_or_LF a)) (chars (spec_strip_line_terminator s))
  = filter (fun a => negb (is_CR_or_LF a)) (chars s).
Proof.
  unfold chars. induction s as [|a s IH]; [reflexivity|].
  cbn [spec_strip_line_terminator].
  destruct (spec_strip_line_terminator s) as [|b kept].
  - cbn [list_ascii_of_string filter] in IH.
    cbn [list_ascii_of_string filter]. rewrite <- IH.
    destruct (is_CR_or_LF a) eqn:Ha;
      cbn [list_ascii_of_string filter negb]; now rewrite ?Ha.
  - assert (E : forall x, list_ascii_of_string (String a x)
                          = a :: list_ascii_of_string x) by reflexivity.
    rewrite !E. cbn [filter]. now rewrite IH.
Qed.

Lemma clean_line_after_strip (s : string) :
  clean_line (spec_strip_line_terminator s) = clean_line s.
Proof.
  apply chars_injective. rewrite !clean_line_chars.
  apply strip_keeps_other_chars.
Qed.

(** Cleaning leaves a string alone exactly when it has no CR and no LF. *)
Lemma clean_line_fixed_iff (t : string) :
  clean_line t = t <-> Forall (fun a => is_CR_or_LF a = false) (chars t).
Proof.
  split.
  - intros H. apply (f_equal chars) in H. rewrite clean_line_chars in H.
    apply filter_fixed_iff in H.
    eapply Forall_impl; [|exact H].
    intros a Ha. now apply negb_true_iff.
  - intros H. apply chars_injective. rewrite clean_line_chars.
    apply filter_fixed_iff.
    eapply Forall_impl; [|exact H].
    intros a Ha. now apply negb_true_iff.
Qed.

Lemma clean_line_is_strip_iff (l : string) :
  clean_line l = spec_strip_line_terminator l <->
  Forall (fun a => is_CR_or_LF a = false)
         (chars (spec_strip_line_terminator l)).
Proof.
  rewrite <- (clean_line_after_strip l). apply clean_line_fixed_iff.
Qed.

(** C8, as the code has it.  On a connected session whose transport
    delivers [lines], [execute_command_with_output] raises
    [ExecuteCommandError] exactly when [lines] is empty, and otherwise
    returns the lines in order, each with every LF and CR character
    deleted, wherever it stands: the characters of a returned line are the
    other characters of the delivered line.  When each line is a body free
    of CR and LF followed by its terminator, the bodies are returned; and
    a returned line is the delivered line with its terminator stripped
    exactly when no CR or LF stands before that terminator.  A single line
    ok comes back as it is. *)
Theorem execute_command_with_output_lines
    (command : string) (remote : channel_reply) (w : world)
    (h : handle) (lines : list string) :
  ssh_connection_status (self w) = 2 ->
  ssh_session (self w) = Some h ->
  exec_command_reply remote = None ->
  readlines_reply remote = inr lines ->
  let r := fst (execute_command_with_output command remote w) in
  ((exists e, r = Raise e /\ exn_class e = ExecuteCommandError)
     <-> lines = []) /\
  (lines <> [] -> r = Return (Some (map clean_line lines))) /\
  (forall parts : list (string * string),
     lines = map (fun p => (fst p ++ snd p)%string) parts ->
     Forall (fun p => no_terminator_char (fst p) /\ line_terminator (snd p))
            parts ->
     lines <> [] -> r = Return (Some (map fst parts))) /\
  (lines = ["ok"] -> r = Return (Some ["ok"])) /\
  (forall l,
     chars (clean_line l)
     = filter (fun a => negb (is_CR_or_LF a)) (chars l)) /\
  (forall l,
     clean_line l = spec_strip_line_terminator l <->
     Forall (fun a => is_CR_or_LF a = false)
            (chars (spec_strip_line_terminator l))).
Proof.
  intros Hst Hs Hexec Hread r.
  assert (Hr : r = match lines with
                   | [] => Raise (new ExecuteCommandError
                                    "The command did not return any output")
                   | _ => Return (Some (map clean_line lines))
                   end).
  { subst r. run_body. decide_status. rewrite Hs, Hexec, Hread.
    now destruct lines. }
  clearbody r. subst r.
  split; [split|split; [|split; [|split; [|split]]]].
  - intros (e & He & _). destruct lines; [reflexivity|discriminate].
  - intros ->. eexists. split; reflexivity.
  - intros Hne. destruct lines; [contradiction|reflexivity].
  - intros parts Hl Hparts Hne.
    assert (Hc : map clean_line lines = map fst parts).
    { subst lines. rewrite map_map. apply map_ext_in.
      intros q Hq. rewrite Forall_forall in Hparts.
      destruct (Hparts q Hq). now apply clean_line_strips_terminator. }
    rewrite <- Hc. destruct lines; [contradiction|reflexivity].
  - intros ->. reflexivity.
  - apply clean_line_chars.
  - apply clean_line_is_strip_iff.
Qed.

Lemma execute_command_with_output_lines_witness :
  ssh_connection_status (self connected) = 2 /\
  ssh_session (self connected) = Some 0%nat /\
  fst (execute_command_with_output "ls" (replies two_lines 0) connected)
  = Return (Some ["ok"; "done"]).
Proof.
  split; [reflexivity|]. split; [reflexivity|].
  destruct (execute_command_with_output_lines
              "ls" (replies two_lines 0) connected 0%nat two_lines
              eq_refl eq_refl eq_refl eq_refl) as (_ & H & _).
  apply H. discriminate.
Defined.

(** C8 as stated fails: a line with a carriage return before its
    terminator does not come back with only its terminator stripped; the
    inner carriage return is deleted as well. *)
Lemma inner_carriage_return_is_deleted :
  ~ (forall (command : string) (remote : channel_reply) (w : world)
            (h : handle) (lines : list string),
       ssh_connection_status (self w) = 2 ->
       ssh_session (self w) = Some h ->
       exec_command_reply remote = None ->
       readlines_reply remote = inr lines ->
       lines <> [] ->
       fst (execute_command_with_output command remote w)
       = Return (Some (map spec_strip_line_terminator lines))).
Proof.
  intros H.
  assert (Hne : [progress_line] <> []) by discriminate.
  specialize (H "./progress.sh" (replies [progress_line] 0) connected 0%nat
                [progress_line] eq_refl eq_refl eq_refl eq_refl Hne).
  vm_compute in H. discriminate H.
Qed.

Example progress_line_cleaned_and_stripped :
  clean_line progress_line = "10%20%" /\
  spec_strip_line_terminator progress_line = ("10%" ++ String CR "20%")%string.
Proof. split; reflexivity. Qed.

(** X17.  Cleaning a line deletes every LF and every CR and nothing
    else: the characters of the cleaned line are the other characters of
    the line, in their order.  So a cleaned line holds neither character,
    and cleaning it again changes nothing. *)
Theorem clean_line_is_a_filter (s : string) :
  chars (clean_line s) = filter (fun a => negb (is_CR_or_LF a)) (chars s) /\
  ~ In LF (chars (clean_line s)) /\
  ~ In CR (chars (clean_line s)) /\
  clean_line (clean_line s) = clean_line s.
Proof.
  split; [apply clean_line_chars|].
  split; [now apply clean_line_drops|].
  split; [now apply clean_line_drops|].
  apply chars_injective. rewrite !clean_line_chars, filter_filter.
  apply filter_ext. intros a. now rewrite andb_diag.
Qed.

(** X18.  What a returned list tells.  If [execute_command_with_output]
    returns a list, the session was connected, the transport delivered at
    least one line, and the list has one entry per delivered line, in
    order -- a blank line is kept as an empty entry -- none of which
    holds a CR or an LF. *)
Theorem returned_lines_are_the_cleaned_lines
    (command : string) (remote : channel_reply) (w : world)
    (out : list string) :
  fst (execute_command_with_output command remote w) = Return (Some out) ->
  ssh_connection_status (self w) = 2 /\
  exists lines,
    readlines_reply remote = inr lines /\
    lines <> [] /\
    out = map clean_line lines /\
    List.length out = List.length lines /\
    Forall (fun l => ~ In CR (chars l) /\ ~ In LF (chars l)) out.
Proof.
  run_body.
  destruct (Z.eqb_spec (ssh_connection_status (self w)) 2) as [Hst|Hst];
    [|discriminate].
  destruct (ssh_session (self w)) as [h|]; execute; [|discriminate].
  destruct (exec_command_reply remote); execute; [discriminate|].
  destruct (readlines_reply remote) as [e|lines]; execute; [discriminate|].
  destruct lines as [|l lines]; execute; [discriminate|].
  intros [= <-]. split; [assumption|].
  exists (l :: lines). repeat split; try discriminate.
  - change (List.length (map clean_line (l :: lines))
            = List.length (l :: lines)).
    apply length_map.
  - change (Forall (fun l0 => ~ In CR (chars l0) /\ ~ In LF (chars l0))
                   (map clean_line (l :: lines))).
    apply Forall_forall. intros x Hx. apply in_map_iff in Hx.
    destruct Hx as (y & <- & _).
    split; now apply clean_line_drops.
Qed.

Lemma returned_lines_are_the_cleaned_lines_witness :
  fst (execute_command_with_output "ls"
         (replies [String CR (String LF ""); "ok"] 0) connected)
  = Return (Some [""; "ok"]) /\
  ssh_connection_status (self connected) = 2.
Proof.
  split; [reflexivity|].
  apply (returned_lines_are_the_cleaned_lines
           "ls" (replies [String CR (String LF ""); "ok"] 0) connected
           [""; "ok"]).
  reflexivity.
Defined.

(** ** The causes of a failed transfer *)

(** X19.  [push_file] and [pull_file] list their [except] clauses in a
    different order, and it makes no difference: on an open channel every
    exception of the copy is put in the same one of the seven causes by
    both, each with its own wording.  Neither ever changes a field. *)
Theorem push_and_pull_classify_alike
    (l r : string) (e : exn) (w : world) (c : handle) :
  scp_connection_status (self w) = 2 ->
  scp_session (self w) = Some c ->
  exists push_msg pull_msg,
    In (push_msg, pull_msg) transfer_messages /\
    push_file l r (Some e) w
    = (Raise (new SCPTransferError push_msg), logged w [EvPut c l r]) /\
    pull_file l r (Some e) w
    = (Raise (new SCPTransferError pull_msg), logged w [EvGet c r l]).
Proof.
  intros Hst Hs. run_body. execute. unfold isinstance, logged.
  destruct e as [cls errno msg]. cbn [exn_class].
  destruct cls; cbn;
    do 2 eexists; (split; [|split; reflexivity]); cbn; tauto.
Qed.

Lemma push_and_pull_classify_alike_witness :
  scp_connection_status (self channel_open) = 2 /\
  scp_session (self channel_open) = Some 1%nat /\
  exists push_msg pull_msg,
    In (push_msg, pull_msg) transfer_messages /\
    push_file "./test.txt" "/mnt/internal_slot1/" (Some auth_rejected)
              channel_open
    = (Raise (new SCPTransferError push_msg),
       logged channel_open
         [EvPut 1%nat "./test.txt" "/mnt/internal_slot1/"]) /\
    pull_file "./test.txt" "/mnt/internal_slot1/" (Some auth_rejected)
              channel_open
    = (Raise (new SCPTransferError pull_msg),
       logged channel_open
         [EvGet 1%nat "/mnt/internal_slot1/" "./test.txt"]).
Proof.
  split; [reflexivity|]. split; [reflexivity|].
  apply (push_and_pull_classify_alike
           "./test.txt" "/mnt/internal_slot1/" auth_rejected channel_open
           1%nat eq_refl eq_refl).
Defined.

(** * Further properties of sequences of operations *)

Lemma run_ops_app (os1 os2 : list op) (w : world) :
  run_ops (os1 ++ os2) w = run_ops os2 (run_ops os1 w).
Proof. unfold run_ops. apply fold_left_app. Qed.

(** The world after a connect that succeeds. *)
Lemma ssh_connect_success
    (hostname username : string) (ssh_key_path : option string)
    (net : Z -> attempt_net) (force_connect : bool) (w : world) :
  may_connect w force_connect ->
  connect_succeeds ssh_key_path net = true ->
  exists evs,
    ssh_connect hostname username ssh_key_path net force_connect w
    = (Return (Some (allocated w)),
       mkWorld (mkSSHConnect (Some (allocated w)) (scp_session (self w)) 2
                             (scp_connection_status (self w)))
               (trace w ++ evs) (S (allocated w))).
Proof.
  intros Hmay Hok.
  rewrite (ssh_connect_unfolded hostname username ssh_key_path net
             force_connect w (may_connect_passes w force_connect Hmay)).
  unfold connect_succeeds in Hok.
  unfold with_ssh_status, logged, begun. settle.
  destruct (attempt_outcome ssh_key_path (net 0)) as [e0|].
  - destruct (isinstance e0 AuthenticationException); [discriminate|].
    destruct (attempt_outcome ssh_key_path (net 1)) as [e1|];
      [discriminate|].
    eexists. rewrite <- !app_assoc. reflexivity.
  - eexists. rewrite <- !app_assoc. reflexivity.
Qed.

Lemma scp_connect_opens (w : world) (h : handle) :
  ssh_connection_status (self w) = 2 ->
  ssh_session (self w) = Some h ->
  self (snd (scp_connect None w))
  = mkSSHConnect (Some h) (Some (allocated w)) 2 2.
Proof.
  intros Hst Hs. run_body. execute. now rewrite Hst, Hs.
Qed.

Lemma work_keeps_fields (o : op) (w : world) :
  is_work o = true -> self (run_op o w) = self w.
Proof.
  destruct o; try discriminate; intros _; cbn [run_op]; run_body;
    split_cases; reflexivity.
Qed.

Lemma run_ops_work (os : list op) (w : world) :
  forallb is_work os = true -> self (run_ops os w) = self w.
Proof.
  revert w. induction os as [|o os IH]; intros w H; [reflexivity|].
  cbn [forallb] in H. apply andb_true_iff in H. destruct H as [Ho Hos].
  change (run_ops (o :: os) w) with (run_ops os (run_op o w)).
  rewrite (IH _ Hos). now apply work_keeps_fields.
Qed.

(** X20.  A whole session leaves no trace in the fields.  After a
    connect that succeeds, opening the channel, any number of commands and
    transfers -- returning or raising, whatever the remote end answers --
    and a [disconnect_all] whose [close] calls return, the two handles are
    cleared and the two statuses are 1, as in a new object. *)
Theorem session_round_trip
    (hostname username : string) (ssh_key_path : option string)
    (net : Z -> attempt_net) (force_connect : bool)
    (work : list op) (w : world) :
  may_connect w force_connect ->
  connect_succeeds ssh_key_path net = true ->
  forallb is_work work = true ->
  self (run_ops
          (OpConnect hostname username ssh_key_path force_connect net
           :: OpScpConnect None :: work ++ [OpDisconnectAll None None]) w)
  = init.
Proof.
  intros Hmay Hok Hwork.
  change (run_ops (?a :: ?b :: work ++ ?d) w)
    with (run_ops (work ++ d) (run_op b (run_op a w))).
  rewrite run_ops_app.
  destruct (ssh_connect_success hostname username ssh_key_path net
              force_connect w Hmay Hok) as [evs E].
  change (run_op (OpConnect hostname username ssh_key_path force_connect
                            net) w)
    with (snd (ssh_connect hostname username ssh_key_path net
                           force_connect w)).
  rewrite E. cbn [snd].
  set (w1 := mkWorld _ (trace w ++ evs) _).
  pose proof (scp_connect_opens w1 (allocated w) eq_refl eq_refl) as E2.
  set (w2 := run_op (OpScpConnect None) w1).
  change (self w2 = mkSSHConnect (Some (allocated w)) (Some (allocated w1))
                                 2 2) in E2.
  pose proof (run_ops_work work w2 Hwork) as E3. rewrite E2 in E3.
  set (w3 := run_ops work w2) in *.
  change (run_ops [OpDisconnectAll None None] w3)
    with (snd (disconnect_all None None w3)).
  rewrite (disconnect_all_both_open w3 (allocated w1) (allocated w));
    try (rewrite E3; reflexivity).
  reflexivity.
Qed.

Lemma session_round_trip_witness :
  may_connect fresh false /\
  connect_succeeds None net_ok = true /\
  self (run_ops
          [ OpConnect "10.0.0.5" "root" None false net_ok;
            OpScpConnect None;
            OpPush "./script.sh" "/data/script.sh" None;
            OpExecuteWithOutput "chmod +x /data/script.sh" (replies [] 0);
            OpPull "./out.txt" "/data/logs/out.txt" (Some file_not_found);
            OpDisconnectAll None None ] fresh)
  = init.
Proof.
  assert (Hmay : may_connect fresh false) by (left; vm_compute; lia).
  split; [exact Hmay|]. split; [reflexivity|].
  apply (session_round_trip "10.0.0.5" "root" None net_ok false
           [ OpPush "./script.sh" "/data/script.sh" None;
             OpExecuteWithOutput "chmod +x /data/script.sh" (replies [] 0);
             OpPull "./out.txt" "/data/logs/out.txt" (Some file_not_found) ]
           fresh Hmay); reflexivity.
Defined.

(** ** What holds in every reachable state *)

(** [ssh_connect] writes neither channel field; its session status ends
    as it was, at 2 or at 0. *)
Lemma ssh_connect_channel_frame
    (hostname username : string) (ssh_key_path : option string)
    (net : Z -> attempt_net) (force_connect : bool) (w : world) :
  let o' := self (snd (ssh_connect hostname username ssh_key_path net
                                   force_connect w)) in
  scp_session o' = scp_session (self w) /\
  scp_connection_status o' = scp_connection_status (self w) /\
  (ssh_connection_status o' = ssh_connection_status (self w) \/
   ssh_connection_status o' = 2 \/ ssh_connection_status o' = 0).
Proof.
  cbv zeta.
  destruct ((ssh_connection_status (self w) =? 2) && negb force_connect)
    eqn:Hpre.
  - assert (E : ssh_connect hostname username ssh_key_path net
                             force_connect w
                 = (Raise (new SSHAlreadyConnectedError
                             "SSH Connection already established"), w))
      by (unfold ssh_connect, bind at 1, get_self; now rewrite Hpre).
    rewrite E. split; [reflexivity|split; [reflexivity|now left]].
  - rewrite (ssh_connect_unfolded hostname username ssh_key_path net
               force_connect w Hpre).
    destruct (attempt_outcome ssh_key_path (net 0)) as [e0|].
    + destruct (isinstance e0 AuthenticationException).
      * split; [reflexivity|split; [reflexivity|now left]].
      * destruct (attempt_outcome ssh_key_path (net 1)) as [e1|].
        -- destruct (isinstance e1 AuthenticationException).
           ++ split; [reflexivity|split; [reflexivity|now left]].
           ++ split; [reflexivity|split; [reflexivity|now right; right]].
        -- split; [reflexivity|split; [reflexivity|now right; left]].
    + split; [reflexivity|split; [reflexivity|now right; left]].
Qed.

Lemma run_op_channel_handle (o : op) (w : world) :
  channel_handle_when_open (self w) ->
  channel_handle_when_open (self (run_op o w)).
Proof.
  unfold channel_handle_when_open. intros Hw.
  destruct o; cbn [run_op];
    try (destruct (ssh_connect_channel_frame hostname username ssh_key_path
                     net force_connect w) as (-> & -> & _); exact Hw);
    run_body; split_cases;
    solve [ exact Hw
          | intros; congruence
          | intros Hc; specialize (Hw Hc); congruence ].
Qed.

Lemma run_op_status_codes (o : op) (w : world) :
  status_codes (self w) -> status_codes (self (run_op o w)).
Proof.
  unfold status_codes, status_code. intros [Hssh Hscp].
  destruct o; cbn [run_op];
    try (destruct (ssh_connect_channel_frame hostname username ssh_key_path
                     net force_connect w) as (_ & -> & [-> | [-> | ->]]);
         auto; fail);
    run_body; split_cases; split; auto.
Qed.

Lemma reachable_handles_and_codes (os : list op) :
  handles_present (self (run_ops os fresh)) /\
  status_codes (self (run_ops os fresh)).
Proof.
  induction os as [|o os [[IH1 IH2] IH3]] using rev_ind.
  - split; [split; intros H; discriminate H|].
    split; right; left; reflexivity.
  - rewrite run_ops_snoc. split; [split|].
    + now apply run_op_handle_when_connected.
    + now apply run_op_channel_handle.
    + now apply run_op_status_codes.
Qed.

(** X21.  After any sequence of public operations on a new object, a
    channel status of 2 comes with a channel handle.  So in every state the
    object can reach, a method that passes its status check reaches the
    library: [push_file] and [pull_file] make exactly their one [put] /
    [get] on the stored channel, [execute_command] its one [exec_command]
    on the stored client; none ever trips over a missing handle. *)
Theorem reachable_checks_reach_the_library (os : list op) :
  let w := run_ops os fresh in
  channel_handle_when_open (self w) /\
  (forall l r p,
     scp_connection_status (self w) = 2 ->
     exists c,
       scp_session (self w) = Some c /\
       calls_since w (snd (push_file l r p w)) = [EvPut c l r] /\
       calls_since w (snd (pull_file l r p w)) = [EvGet c r l]) /\
  (forall command parse reply,
     ssh_connection_status (self w) = 2 ->
     exists h,
       ssh_session (self w) = Some h /\
       calls_since w (snd (execute_command command parse reply w))
       = [EvExecCommand h command false]).
Proof.
  intros w. destruct (reachable_handles_and_codes os) as [[Hs Hc] _].
  fold w in Hs, Hc. clearbody w.
  split; [exact Hc|]. split.
  - intros l r p Hst.
    destruct (scp_session (self w)) as [c|] eqn:E;
      [|now elim (Hc Hst)].
    exists c. split; [reflexivity|].
    destruct (push_file_on_open_channel l r p w c Hst E) as [-> _].
    destruct (pull_file_on_open_channel l r p w c Hst E) as [-> _].
    split; now apply calls_since_logged.
  - intros command parse reply Hst.
    destruct (ssh_session (self w)) as [h|] eqn:E;
      [|now elim (Hs Hst)].
    exists h. split; [reflexivity|].
    apply calls_since_logged. run_body. execute.
    now destruct reply.
Qed.

Lemma reachable_checks_reach_the_library_witness :
  scp_connection_status
    (self (run_ops [ OpConnect "198.18.0.171" "root" key false net_ok;
                     OpScpConnect None; OpDisconnect None ] fresh)) = 2 /\
  exists c,
    scp_session
      (self (run_ops [ OpConnect "198.18.0.171" "root" key false net_ok;
                       OpScpConnect None; OpDisconnect None ] fresh))
    = Some c.
Proof.
  split; [reflexivity|].
  destruct (proj1 (proj2 (reachable_checks_reach_the_library
                            [ OpConnect "198.18.0.171" "root" key false net_ok;
                              OpScpConnect None; OpDisconnect None ]))
              "./test.txt" "/mnt/internal_slot1/" None eq_refl)
    as (c & Hc & _).
  exists c. exact Hc.
Defined.

(** X22.  In every reachable state both statuses are one of the three
    documented codes 0, 1 and 2.  So the branch in which a method would
    silently do nothing is never taken: on a session that is not connected
    [ssh_disconnect] and [execute_command] always raise, and so does
    [scp_disconnect] on a channel that is not open. *)
Theorem reachable_statuses_are_codes (os : list op) :
  let w := run_ops os fresh in
  status_codes (self w) /\
  (ssh_connection_status (self w) <> 2 ->
     (forall r,
        ssh_disconnect r w
        = (Raise (new SSHConnectionError
                    "SSH Disconnection failed: No SSH session to close"), w)) /\
     (forall c p r,
        execute_command c p r w
        = (Raise (new ExecuteCommandError
                    "SSH Command execution failed: No SSH session available"),
           w))) /\
  (scp_connection_status (self w) <> 2 ->
     forall r, exists msg,
       scp_disconnect r w = (Raise (new SCPConnectionError msg), w)).
Proof.
  intros w. destruct (reachable_handles_and_codes os) as [_ [Hssh Hscp]].
  fold w in Hssh, Hscp. clearbody w. unfold status_code in *.
  split; [now split|]. split.
  - intros Hne.
    destruct Hssh as [E | [E | E]]; [| |contradiction];
      (split; intros; run_body; now execute).
  - intros Hne r.
    destruct Hscp as [E | [E | E]]; [| |contradiction];
      run_body; execute; eexists; reflexivity.
Qed.

Lemma reachable_statuses_are_codes_witness :
  ssh_connection_status
    (self (run_ops [OpConnect "198.18.0.171" "root" key false net_unreachable]
                   fresh)) <> 2 /\
  fst (ssh_disconnect None
         (run_ops [OpConnect "198.18.0.171" "root" key false net_unreachable]
                  fresh))
  = Raise (new SSHConnectionError
             "SSH Disconnection failed: No SSH session to close").
Proof.
  assert (Hne : ssh_connection_status
                  (self (run_ops [OpConnect "198.18.0.171" "root" key false
                                    net_unreachable] fresh)) <> 2)
    by (vm_compute; lia).
  split; [exact Hne|].
  destruct (proj1 (proj2 (reachable_statuses_are_codes
                            [OpConnect "198.18.0.171" "root" key false
                               net_unreachable])) Hne) as [H _].
  now rewrite H.
Defined.

(** ** The two layers *)

(** X23.  Each connection method writes only the fields of its own layer,
    whatever happens: [ssh_connect] and [ssh_disconnect] never touch the
    channel handle or the channel status, [scp_connect] and
    [scp_disconnect] never touch the session handle or the session
    status. *)
Theorem connection_methods_keep_to_their_layer (w : world) :
  (forall hostname username ssh_key_path net force_connect,
     let o' := self (snd (ssh_connect hostname username ssh_key_path net
                                      force_connect w)) in
     scp_session o' = scp_session (self w) /\
     scp_connection_status o' = scp_connection_status (self w)) /\
  (forall r,
     let o' := self (snd (ssh_disconnect r w)) in
     scp_session o' = scp_session (self w) /\
     scp_connection_status o' = scp_connection_status (self w)) /\
  (forall r,
     let o' := self (snd (scp_connect r w)) in
     ssh_session o' = ssh_session (self w) /\
     ssh_connection_status o' = ssh_connection_status (self w)) /\
  (forall r,
     let o' := self (snd (scp_disconnect r w)) in
     ssh_session o' = ssh_session (self w) /\
     ssh_connection_status o' = ssh_connection_status (self w)).
Proof.
  split; [|split; [|split]]; intros; subst o'.
  - destruct (ssh_connect_channel_frame hostname username ssh_key_path net
                force_connect w) as (H1 & H2 & _).
    now split.
  - run_body. split_cases; now split.
  - run_body. split_cases; now split.
  - run_body. split_cases; now split.
Qed.

(** X24.  [disconnect_all] can stop half way.  With both layers open, if
    the channel closes but closing the session raises, the channel is
    closed for good (no handle, status 1) while the session is still
    connected with its handle.  The error is an [SSHError] when the
    library raised an [SSHException] or an [OSError]; any other exception
    leaves [disconnect_all] as it is. *)
Theorem disconnect_all_session_close_failure
    (w : world) (e : exn) (c h : handle) :
  scp_connection_status (self w) = 2 -> scp_session (self w) = Some c ->
  ssh_connection_status (self w) = 2 -> ssh_session (self w) = Some h ->
  let r := disconnect_all None (Some e) w in
  snd r
  = mkWorld (mkSSHConnect (Some h) None 2 1)
            (trace w ++ [EvSCPClose c; EvSSHClose h]) (allocated w) /\
  (isinstance e SSHException || isinstance e OSError = true ->
     fst r = Raise (new SSHError
                      ("An error occurred when disconnecting all sessions: "
                       ++ "SSH Disconnection failed: " ++ exn_str e))) /\
  (isinstance e SSHException || isinstance e OSError = false ->
     isinstance e SCPConnectionError || isinstance e SSHConnectionError
     = false ->
     fst r = Raise e).
Proof.
  intros Hscp Hc Hssh Hs r. subst r. run_body. execute.
  rewrite !orb_false_r.
  destruct (isinstance e SSHException || isinstance e OSError); execute.
  - change (isinstance (new SSHConnectionError ?m) SCPConnectionError)
      with false.
    change (isinstance (new SSHConnectionError ?m) SSHConnectionError)
      with true.
    execute.
    split; [now rewrite <- app_assoc|]. split; [reflexivity|discriminate].
  - rewrite ?orb_false_r.
    destruct (isinstance e SCPConnectionError
              || isinstance e SSHConnectionError); execute.
    + split; [now rewrite <- app_assoc|]. split; discriminate.
    + split; [now rewrite <- app_assoc|]. split; [discriminate|reflexivity].
Qed.

Lemma disconnect_all_session_close_failure_witness :
  scp_connection_status (self channel_open) = 2 /\
  scp_session (self channel_open) = Some 1%nat /\
  ssh_connection_status (self channel_open) = 2 /\
  ssh_session (self channel_open) = Some 0%nat /\
  self (snd (disconnect_all None (Some channel_closed) channel_open))
  = mkSSHConnect (Some 0%nat) None 2 1.
Proof.
  repeat (split; [reflexivity|]).
  rewrite (proj1 (disconnect_all_session_close_failure
                    channel_open channel_closed 1%nat 0%nat
                    eq_refl eq_refl eq_refl eq_refl)).
  reflexivity.
Defined.
